(** * GAP directory structure validator

    A shallow embedding of [scripts/validate-structure.js] (the version with
    discovery mode) and of its predecessor (single-directory only), together
    with the properties of the validation pipeline.

    Modelling conventions.
    - A JavaScript string is the [string] of its UTF-8 bytes, the form in
      which it is read from disk and written to the terminal.  Every
      character the validator inspects (the letters of "GAP-", decimal
      digits, "@") is ASCII, so comparing bytes gives the verdict that
      comparing UTF-16 code units gives.
    - The script only ever appends to stdout and stderr and stops through
      [process.exit] or an uncaught exception.  A computation is therefore
      the list of lines it printed together with the way it completed.
      What is recorded is what the script itself prints, through
      [console.log] and [console.error]; what Node or a package writes on
      its own account (the trace of an uncaught exception, a warning that
      the YAML parser passes to [process.emitWarning]) is not.
    - Node's [fs] and [path] modules and the npm packages (yaml, ajv,
      validator) are not part of the repository; they are gathered in the
      record [Host], over which every definition is parameterised. *)

From Stdlib Require Import String Ascii List Bool Arith ZArith Lia.
From Stdlib Require Import DecimalString.
Import ListNotations.
Local Open Scope string_scope.
Set Warnings "-register-all".

(** ** Strings *)

Definition dquote : string := String "034"%char EmptyString.
Definition newline : string := String "010"%char EmptyString.

(** The check mark U+2713, in UTF-8. *)
Definition checkMark : string :=
  String "226"%char (String "156"%char (String "147"%char EmptyString)).

(** [n] printed in decimal, as a template literal interpolates a number. *)
Definition decimal (n : nat) : string := NilEmpty.string_of_uint (Nat.to_uint n).

(** [Array.prototype.join]. *)
Fixpoint joinWith (sep : string) (xs : list string) : string :=
  match xs with
  | [] => ""
  | [x] => x
  | x :: rest => x ++ sep ++ joinWith sep rest
  end.

(** [String.prototype.startsWith]. *)
Definition startsWith (s searchString : string) : bool := String.prefix searchString s.

(** The character class [\d]. *)
Definition isDigit (c : ascii) : bool :=
  ((48 <=? nat_of_ascii c) && (nat_of_ascii c <=? 57))%nat.

(** [s] is made of exactly [n] digits: the sub-pattern [\d{n}$]. *)
Fixpoint digits (n : nat) (s : string) : bool :=
  match n, s with
  | 0, EmptyString => true
  | S n', String c s' => isDigit c && digits n' s'
  | _, _ => false
  end.

(** What is left of [s] after the literal [p], when [s] starts with it. *)
Fixpoint stripPrefix (p s : string) : option string :=
  match p, s with
  | EmptyString, _ => Some s
  | String a p', String b s' => if Ascii.eqb a b then stripPrefix p' s' else None
  | String _ _, EmptyString => None
  end.

(** [/^GAP-\d{4}$/.test(s)].  Without the [m] flag, [$] matches at the end of
    the input only. *)
Definition re_GAP_NNNN (s : string) : bool :=
  match stripPrefix "GAP-" s with
  | Some rest => digits 4 rest
  | None => false
  end.

(** [/^GAP-/.test(s)]. *)
Definition re_GAP_prefix (s : string) : bool := String.prefix "GAP-" s.

Fixpoint hasNewline (s : string) : bool :=
  match s with
  | EmptyString => false
  | String c s' => Ascii.eqb c "010"%char || hasNewline s'
  end.

(** ** JavaScript values, as the YAML parser returns them *)

Inductive JsValue : Type :=
| JUndefined
| JNull
| JBool (b : bool)
| JNum (n : Z)
| JStr (s : string)
| JArr (items : list JsValue)
| JObj (props : list (string * JsValue)).

(** The [typeof] operator. *)
Definition typeof (v : JsValue) : string :=
  match v with
  | JUndefined => "undefined"
  | JNull => "object"
  | JBool _ => "boolean"
  | JNum _ => "number"
  | JStr _ => "string"
  | JArr _ => "object"
  | JObj _ => "object"
  end.

Fixpoint lookupProp (k : string) (props : list (string * JsValue)) : option JsValue :=
  match props with
  | [] => None
  | (k', v) :: rest => if String.eqb k k' then Some v else lookupProp k rest
  end.

(** ** Processes: printed lines and completion *)

Inductive Line : Type :=
| Out (s : string)   (* console.log *)
| Err (s : string).  (* console.error *)

Inductive Completion (A : Type) : Type :=
| Normal (a : A)
| Exited (code : Z)        (* process.exit(code) *)
| Thrown (err : string).   (* an exception nobody caught *)

Arguments Normal {A} a.
Arguments Exited {A} code.
Arguments Thrown {A} err.

Definition Proc (A : Type) : Type := (list Line * Completion A)%type.

Definition ret {A} (a : A) : Proc A := ([], Normal a).

Definition bind {A B} (m : Proc A) (f : A -> Proc B) : Proc B :=
  match m with
  | (out, Normal a) => let (out', c) := f a in ((out ++ out')%list, c)
  | (out, Exited n) => (out, Exited n)
  | (out, Thrown e) => (out, Thrown e)
  end.

Notation "x <- m ;; k" := (bind m (fun x => k))
  (at level 61, m at next level, right associativity).
Notation "m ;; k" := (bind m (fun _ => k))
  (at level 61, right associativity).

Definition console_log (s : string) : Proc unit := ([Out s], Normal tt).
Definition console_error (s : string) : Proc unit := ([Err s], Normal tt).
Definition process_exit {A} (code : Z) : Proc A := ([], Exited code).
Definition throw {A} (err : string) : Proc A := ([], Thrown err).

(** [if (c) { body }] with no [else]. *)
Definition when_ (c : bool) (body : Proc unit) : Proc unit :=
  if c then body else ret tt.

(** [for (const x of xs) { body }] over the elements [xs]. *)
Fixpoint forOf {A} (xs : list A) (body : A -> Proc unit) : Proc unit :=
  match xs with
  | [] => ret tt
  | x :: rest => body x ;; forOf rest body
  end.

Definition printed {A} (p : Proc A) : list Line := fst p.
Definition completion {A} (p : Proc A) : Completion A := snd p.

(** The status the operating system sees.  Node exits with 1 on an uncaught
    exception. *)
Definition exitStatus {A} (c : Completion A) : Z :=
  match c with
  | Normal _ => 0
  | Exited n => n
  | Thrown _ => 1
  end.

(** ** The host: file system, path functions and third-party packages *)

Module Stats.
Record t : Type := { isDirectory : bool }.
End Stats.

Module Dirent.
Record t : Type := { name : string; isDirectory : bool }.
End Dirent.

(** One entry of ajv's [errors] array. *)
Record ErrorObject : Type := { instancePath : string; message : string }.

(** A call of the compiled schema: the boolean it returns and the [errors]
    it leaves on the validating function. *)
Record AjvResult : Type := { valid : bool; errors : list ErrorObject }.

(** A function that throws is a function into a sum: [inl] the value
    returned, [inr] the [message] of the error thrown. *)
Record Host : Type := {
  __dirname : string;
  basename : string -> string;
  join : string -> string -> string;
  existsSync : string -> bool;
  statSync : string -> Stats.t + string;
  readdirSync : string -> list Dirent.t + string;
  readFileSync : string -> string + string;
  (* the value or the error of yaml's parse; the warnings it may emit
     besides are not recorded *)
  parseYaml : string -> JsValue + string;
  (* ajv.compile(metadataSchema), built once when the module is loaded *)
  validateMetadataSchema : JsValue -> AjvResult;
  (* validator.isEmail(s, { allow_display_name: true }) on a string *)
  isEmail : string -> bool;
  (* validator.isURL(s) on a string *)
  isURL : string -> bool
}.

(** Running a host function that may throw, with no [try] around it. *)
Definition uncaught {A} (r : A + string) : Proc A :=
  match r with
  | inl a => ret a
  | inr e => throw e
  end.

(** Property access [v.k], for the keys the validator reads ([authors],
    [sponsor], [discussion]): own properties of a mapping; [undefined] on
    arrays and primitives, whose prototypes have no such property; a
    TypeError on [null] and [undefined]. *)
Definition getProp (v : JsValue) (k : string) : Proc JsValue :=
  match v with
  | JUndefined =>
      throw ("TypeError: Cannot read properties of undefined (reading '" ++ k ++ "')")
  | JNull =>
      throw ("TypeError: Cannot read properties of null (reading '" ++ k ++ "')")
  | JObj props =>
      match lookupProp k props with
      | Some x => ret x
      | None => ret JUndefined
      end
  | _ => ret JUndefined
  end.

(** A byte that continues a multi-byte character. *)
Definition isContinuation (c : ascii) : bool :=
  ((128 <=? nat_of_ascii c) && (nat_of_ascii c <? 192))%nat.

(** The characters of a string, each a string of its own: a byte together
    with the continuation bytes that follow it. *)
Fixpoint characters (s : string) : list string :=
  match s with
  | EmptyString => []
  | String c s' =>
      let alone := String c EmptyString in
      match s' with
      | EmptyString => [alone]
      | String c' _ =>
          if isContinuation c' then
            match characters s' with
            | next :: others => String c next :: others
            | [] => [alone]
            end
          else alone :: characters s'
      end
  end.

(** The elements a [for ... of] loop visits: arrays and strings are
    iterable, nothing else the parser returns is. *)
Definition iterate (v : JsValue) : Proc (list JsValue) :=
  match v with
  | JArr items => ret items
  | JStr s => ret (map JStr (characters s))
  | _ => throw "TypeError: metadata.authors is not iterable"
  end.

(** validator's [assertString]: every check of the package throws on a
    value that is not a string. *)
Definition assertString (v : JsValue) : Proc string :=
  match v with
  | JStr s => ret s
  | _ => throw "TypeError: Expected a string"
  end.

(** [v.startsWith(prefix)]: only strings have the method; reading it off
    [undefined] or [null] is already a TypeError. *)
Definition callStartsWith (v : JsValue) (prefix : string) : Proc bool :=
  match v with
  | JStr s => ret (startsWith s prefix)
  | JUndefined =>
      throw "TypeError: Cannot read properties of undefined (reading 'startsWith')"
  | JNull => throw "TypeError: Cannot read properties of null (reading 'startsWith')"
  | _ => throw "TypeError: metadata.sponsor.startsWith is not a function"
  end.

(** ** The validator: [scripts/validate-structure.js] *)

Module New.
Section Script.
Variable h : Host.

Definition error {A} (gapName message : string) : Proc A :=
  console_error (gapName ++ ": " ++ message) ;;
  process_exit 1.

Definition validateDirectoryNaming (dirPath : string) : Proc string :=
  let dirName := basename h dirPath in
  (* Special case: GAP-0 is allowed *)
  if String.eqb dirName "GAP-0" then ret dirName
  else
    (* Must match GAP-NNNN format (4 digits, zero-padded) *)
    when_ (negb (re_GAP_NNNN dirName))
      (error dirName
         "Invalid directory name format. Expected GAP-NNNN (4 digits, zero-padded)") ;;
    ret dirName.

Definition validateReadmeExists (dirPath gapName : string) : Proc unit :=
  let readmePath := join h dirPath "README.md" in
  when_ (negb (existsSync h readmePath))
    (error gapName "No README.md file found").

Definition validateMetadata (dirPath gapName : string) : Proc unit :=
  let metadataPath := join h dirPath "metadata.yml" in
  when_ (negb (existsSync h metadataPath))
    (error gapName "No metadata.yml file found") ;;
  content <-
    match readFileSync h metadataPath with
    | inl c => ret c
    | inr err => error gapName ("Failed to read metadata.yml: " ++ err)
    end ;;
  metadata <-
    match parseYaml h content with
    | inl v => ret v
    | inr err => error gapName ("Invalid YAML in metadata.yml: " ++ err)
    end ;;
  when_ (negb (String.eqb (typeof metadata) "object"))
    (error gapName "metadata.yml must contain a valid YAML object") ;;
  (* Validate against JSON Schema *)
  let result := validateMetadataSchema h metadata in
  when_ (negb (valid result))
    (let errors :=
       joinWith newline
         (map (fun err =>
                 let prefix :=
                   if String.eqb (instancePath err) "" then ""
                   else instancePath err ++ ": " in
                 prefix ++ message err)
              (errors result)) in
     error gapName ("metadata.yml validation failed:" ++ newline ++ newline ++ errors)) ;;
  (* Validate authors have valid email format *)
  authors <- getProp metadata "authors" ;;
  entries <- iterate authors ;;
  forOf entries (fun author =>
    s <- assertString author ;;
    when_ (negb (isEmail h s))
      (error gapName
         ("metadata.yml invalid author " ++ dquote ++ s ++ dquote
          ++ " - must be " ++ dquote ++ "Name <email>" ++ dquote
          ++ " or a valid email"))) ;;
  (* Validate sponsor starts with @ *)
  sponsor <- getProp metadata "sponsor" ;;
  atSign <- callStartsWith sponsor "@" ;;
  when_ (negb atSign)
    (error gapName
       ("metadata.yml sponsor must be a GitHub username starting with @ (got "
        ++ dquote ++ match sponsor with JStr s => s | _ => "" end ++ dquote ++ ")")) ;;
  (* Validate discussion is a valid URL *)
  discussion <- getProp metadata "discussion" ;;
  url <- assertString discussion ;;
  when_ (negb (isURL h url))
    (error gapName
       ("metadata.yml discussion must be a valid URL (got "
        ++ dquote ++ url ++ dquote ++ ")")).

Definition discoverGapDirectories : Proc (list string) :=
  let rootDir := join h (__dirname h) ".." in
  entries <- uncaught (readdirSync h rootDir) ;;
  ret (map (fun entry => join h rootDir (Dirent.name entry))
         (filter (fun entry => Dirent.isDirectory entry && re_GAP_prefix (Dirent.name entry))
            entries)).

Definition validateGapDirectory (dirPath : string) : Proc unit :=
  when_ (negb (existsSync h dirPath))
    (console_error ("Directory does not exist: " ++ dirPath) ;;
     process_exit 1) ;;
  st <- uncaught (statSync h dirPath) ;;
  when_ (negb (Stats.isDirectory st))
    (console_error ("Not a directory: " ++ dirPath) ;;
     process_exit 1) ;;
  (* Validate directory naming *)
  gapName <- validateDirectoryNaming dirPath ;;
  (* Validate README.md exists *)
  validateReadmeExists dirPath gapName ;;
  (* Validate metadata.yml *)
  validateMetadata dirPath gapName ;;
  console_log (checkMark ++ " " ++ gapName ++ " validated successfully").

(** [positionals] is what [parseArgs] returns for the command line. *)
Definition main (positionals : list string) : Proc unit :=
  if (length positionals =? 0)%nat then
    (* No arguments provided - discover and validate all GAP directories *)
    gapDirs <- discoverGapDirectories ;;
    when_ (length gapDirs =? 0)%nat
      (console_error "No GAP directories found" ;;
       process_exit 1) ;;
    console_log ("Found " ++ decimal (length gapDirs) ++ " GAP director"
                 ++ (if (length gapDirs =? 1)%nat then "y" else "ies")) ;;
    forOf gapDirs validateGapDirectory
  else if (length positionals =? 1)%nat then
    (* Single directory provided - validate it *)
    let dirPath := nth 0 positionals "" in
    validateGapDirectory dirPath
  else
    console_error "Usage: ./scripts/validate-structure.js [gap-directory]" ;;
    process_exit 1.

End Script.
End New.

(** ** The predecessor: single-directory mode only

    The second source file of the repository is the earlier version of the
    same script.  Its helper functions are written out again here, from that
    file, so that the two versions can be compared. *)

Module Old.
Section Script.
Variable h : Host.

Definition error {A} (gapName message : string) : Proc A :=
  console_error (gapName ++ ": " ++ message) ;;
  process_exit 1.

Definition validateDirectoryNaming (dirPath : string) : Proc string :=
  let dirName := basename h dirPath in
  if String.eqb dirName "GAP-0" then ret dirName
  else
    when_ (negb (re_GAP_NNNN dirName))
      (error dirName
         "Invalid directory name format. Expected GAP-NNNN (4 digits, zero-padded)") ;;
    ret dirName.

Definition validateReadmeExists (dirPath gapName : string) : Proc unit :=
  let readmePath := join h dirPath "README.md" in
  when_ (negb (existsSync h readmePath))
    (error gapName "No README.md file found").

Definition validateMetadata (dirPath gapName : string) : Proc unit :=
  let metadataPath := join h dirPath "metadata.yml" in
  when_ (negb (existsSync h metadataPath))
    (error gapName "No metadata.yml file found") ;;
  content <-
    match readFileSync h metadataPath with
    | inl c => ret c
    | inr err => error gapName ("Failed to read metadata.yml: " ++ err)
    end ;;
  metadata <-
    match parseYaml h content with
    | inl v => ret v
    | inr err => error gapName ("Invalid YAML in metadata.yml: " ++ err)
    end ;;
  when_ (negb (String.eqb (typeof metadata) "object"))
    (error gapName "metadata.yml must contain a valid YAML object") ;;
  let result := validateMetadataSchema h metadata in
  when_ (negb (valid result))
    (let errors :=
       joinWith newline
         (map (fun err =>
                 let prefix :=
                   if String.eqb (instancePath err) "" then ""
                   else instancePath err ++ ": " in
                 prefix ++ message err)
              (errors result)) in
     error gapName ("metadata.yml validation failed:" ++ newline ++ newline ++ errors)) ;;
  authors <- getProp metadata "authors" ;;
  entries <- iterate authors ;;
  forOf entries (fun author =>
    s <- assertString author ;;
    when_ (negb (isEmail h s))
      (error gapName
         ("metadata.yml invalid author " ++ dquote ++ s ++ dquote
          ++ " - must be " ++ dquote ++ "Name <email>" ++ dquote
          ++ " or a valid email"))) ;;
  sponsor <- getProp metadata "sponsor" ;;
  atSign <- callStartsWith sponsor "@" ;;
  when_ (negb atSign)
    (error gapName
       ("metadata.yml sponsor must be a GitHub username starting with @ (got "
        ++ dquote ++ match sponsor with JStr s => s | _ => "" end ++ dquote ++ ")")) ;;
  discussion <- getProp metadata "discussion" ;;
  url <- assertString discussion ;;
  when_ (negb (isURL h url))
    (error gapName
       ("metadata.yml discussion must be a valid URL (got "
        ++ dquote ++ url ++ dquote ++ ")")).

Definition main (positionals : list string) : Proc unit :=
  when_ (negb (length positionals =? 1)%nat)
    (console_error "Usage: ./scripts/validate-structure.js <gap-directory>" ;;
     process_exit 1) ;;
  let dirPath := nth 0 positionals "" in
  when_ (negb (existsSync h dirPath))
    (console_error ("Directory does not exist: " ++ dirPath) ;;
     process_exit 1) ;;
  st <- uncaught (statSync h dirPath) ;;
  when_ (negb (Stats.isDirectory st))
    (console_error ("Not a directory: " ++ dirPath) ;;
     process_exit 1) ;;
  (* Validate directory naming *)
  gapName <- validateDirectoryNaming dirPath ;;
  (* Validate README.md exists *)
  validateReadmeExists dirPath gapName ;;
  (* Validate metadata.yml *)
  validateMetadata dirPath gapName.

End Script.
End Old.

(** ** Vocabulary of the specification *)

(** One of the ten decimal digits. *)
Definition decimalDigit (c : ascii) : Prop :=
  In c (list_ascii_of_string "0123456789").

(** The names the convention allows: [GAP-0], or [GAP-] followed by exactly
    four decimal digits. *)
Definition wellNamed (name : string) : Prop :=
  name = "GAP-0" \/
  exists d1 d2 d3 d4,
    decimalDigit d1 /\ decimalDigit d2 /\ decimalDigit d3 /\ decimalDigit d4 /\
    name = "GAP-" ++ String d1 (String d2 (String d3 (String d4 EmptyString))).

(** The string begins with the literal [p]. *)
Definition beginsWith (p s : string) : Prop := exists rest, s = p ++ rest.

(** Only the first character is looked at. *)
Definition firstCharIs (c : ascii) (s : string) : bool :=
  match s with
  | String c' _ => Ascii.eqb c' c
  | EmptyString => false
  end.

(** The ways one directory can fail validation, in the order of the
    pipeline. *)
Inductive Failure : Type :=
| BadName
| NoReadme
| NoMetadata
| Unreadable (err : string)
| BadYaml (err : string)
| NotAnObject
| SchemaViolation (errs : list ErrorObject)
| BadAuthor (author : string)
| BadSponsor (sponsor : string)
| BadDiscussion (discussion : string).

Definition renderSchemaError (e : ErrorObject) : string :=
  match instancePath e with
  | EmptyString => message e
  | path => path ++ ": " ++ message e
  end.

(** The failure description printed after the directory name. *)
Definition describe (f : Failure) : string :=
  match f with
  | BadName => "Invalid directory name format. Expected GAP-NNNN (4 digits, zero-padded)"
  | NoReadme => "No README.md file found"
  | NoMetadata => "No metadata.yml file found"
  | Unreadable err => "Failed to read metadata.yml: " ++ err
  | BadYaml err => "Invalid YAML in metadata.yml: " ++ err
  | NotAnObject => "metadata.yml must contain a valid YAML object"
  | SchemaViolation errs =>
      "metadata.yml validation failed:" ++ newline ++ newline
      ++ joinWith newline (map renderSchemaError errs)
  | BadAuthor a =>
      "metadata.yml invalid author " ++ dquote ++ a ++ dquote ++ " - must be "
      ++ dquote ++ "Name <email>" ++ dquote ++ " or a valid email"
  | BadSponsor s =>
      "metadata.yml sponsor must be a GitHub username starting with @ (got "
      ++ dquote ++ s ++ dquote ++ ")"
  | BadDiscussion d =>
      "metadata.yml discussion must be a valid URL (got " ++ dquote ++ d ++ dquote ++ ")"
  end.

(** What a failed validation looks like from outside: one message on
    stderr, prefixed by the directory name, and exit status 1. *)
Definition fails {A} (gapName : string) (f : Failure) : Proc A :=
  ([Err (gapName ++ ": " ++ describe f)], Exited 1).

(** The line printed for a directory that passed. *)
Definition successLine (gapName : string) : string :=
  checkMark ++ " " ++ gapName ++ " validated successfully".

(** The shape the schema is documented to require: a mapping whose
    [authors] is a sequence of strings and whose [sponsor] and [discussion]
    are strings. *)
Definition shaped (v : JsValue) (authors : list string) (sponsor discussion : string) : Prop :=
  exists props,
    v = JObj props /\
    lookupProp "authors" props = Some (JArr (map JStr authors)) /\
    lookupProp "sponsor" props = Some (JStr sponsor) /\
    lookupProp "discussion" props = Some (JStr discussion).

Definition schemaGuaranteesShape (h : Host) : Prop :=
  forall v, valid (validateMetadataSchema h v) = true ->
    exists authors sponsor discussion, shaped v authors sponsor discussion.

(** [metadata.yml] of [dirPath] exists, can be read and parses to [v]. *)
Definition metadataParsesTo (h : Host) (dirPath : string) (v : JsValue) : Prop :=
  existsSync h (join h dirPath "metadata.yml") = true /\
  exists content,
    readFileSync h (join h dirPath "metadata.yml") = inl content /\
    parseYaml h content = inl v.

(** The three semantic checks in pipeline order, as a decision list. *)
Definition semanticVerdict (h : Host) (gapName : string)
    (authors : list string) (sponsor discussion : string) : Proc unit :=
  match find (fun a => negb (isEmail h a)) authors with
  | Some a => fails gapName (BadAuthor a)
  | None =>
      if negb (firstCharIs "@" sponsor) then fails gapName (BadSponsor sponsor)
      else if negb (isURL h discussion) then fails gapName (BadDiscussion discussion)
      else ret tt
  end.

(** The three ways a step of the validation of [gapName] can end: it
    returns without printing, it reports a failure, or it dies of an
    exception without printing. *)
Definition reportsOrThrows {A} (gapName : string) (p : Proc A) : Prop :=
  (exists a, p = ret a) \/ (exists f, p = fails gapName f) \/ (exists e, p = throw e).

(** The process stops early only by an exception or with status [code]. *)
Definition exitsOnlyWith {A} (code : Z) (p : Proc A) : Prop :=
  forall n, completion p = Exited n -> n = code.

(** The count line of discovery mode. *)
Definition foundLine (n : nat) : string :=
  "Found " ++ decimal n ++ " GAP director" ++ (if (n =? 1)%nat then "y" else "ies").

(** The path of the repository root, as the script computes it. *)
Definition rootDir (h : Host) : string := join h (__dirname h) "..".

(** The entries discovery keeps. *)
Definition isGapEntry (e : Dirent.t) : Prop :=
  Dirent.isDirectory e = true /\ beginsWith "GAP-" (Dirent.name e).

(** ** A sample host

    A small in-memory file system with POSIX-style paths, a table of YAML
    documents with the values they parse to, and stand-ins for the schema
    and the format checkers.  The examples and instances below run the
    script on it. *)

Module Sample.

Inductive Node : Type :=
| File (content : string)
| Dir (names : list string).

Fixpoint lookupNode (p : string) (table : list (string * Node)) : option Node :=
  match table with
  | [] => None
  | (p', n) :: rest => if String.eqb p p' then Some n else lookupNode p rest
  end.

Definition posixJoin (a b : string) : string := a ++ "/" ++ b.

(** The last non-empty component of a path. *)
Fixpoint lastComponent (found current s : string) : string :=
  let keep := match current with EmptyString => found | _ => current end in
  match s with
  | EmptyString => keep
  | String c s' =>
      if Ascii.eqb c "/" then lastComponent keep "" s'
      else lastComponent found (current ++ String c EmptyString) s'
  end.

Definition posixBasename (p : string) : string := lastComponent "" "" p.

Definition exists_ (table : list (string * Node)) (p : string) : bool :=
  match lookupNode p table with Some _ => true | None => false end.

Definition stat (table : list (string * Node)) (p : string) : Stats.t + string :=
  match lookupNode p table with
  | Some (Dir _) => inl {| Stats.isDirectory := true |}
  | Some (File _) => inl {| Stats.isDirectory := false |}
  | None => inr ("ENOENT: no such file or directory, stat '" ++ p ++ "'")
  end.

Definition readdir (table : list (string * Node)) (p : string) : list Dirent.t + string :=
  match lookupNode p table with
  | Some (Dir names) =>
      inl (map (fun n =>
                  {| Dirent.name := n;
                     Dirent.isDirectory :=
                       match lookupNode (posixJoin p n) table with
                       | Some (Dir _) => true
                       | _ => false
                       end |})
             names)
  | Some (File _) => inr ("ENOTDIR: not a directory, scandir '" ++ p ++ "'")
  | None => inr ("ENOENT: no such file or directory, scandir '" ++ p ++ "'")
  end.

Definition readFile (table : list (string * Node)) (p : string) : string + string :=
  match lookupNode p table with
  | Some (File content) => inl content
  | Some (Dir _) => inr "EISDIR: illegal operation on a directory, read"
  | None => inr ("ENOENT: no such file or directory, open '" ++ p ++ "'")
  end.

(** *** Documents *)

Definition ymlValid : string :=
  "{authors: ['Jane Doe <jane@example.com>', 'jane@example.com'], sponsor: '@alice', discussion: 'https://example.com/discuss/42'}".
Definition ymlBadSponsor : string :=
  "{authors: ['jane@example.com'], sponsor: 'alice', discussion: 'https://example.com/discuss/42'}".
Definition ymlAllBad : string :=
  "{authors: ['jane@example.com', 'Jane Doe', 'nobody'], sponsor: 'alice', discussion: 'not a url'}".
Definition ymlNoSponsor : string :=
  "{authors: ['jane@example.com'], discussion: 'https://example.com/discuss/42'}".
Definition ymlSequence : string := "[a, b]".
Definition ymlScalar : string := "42".
Definition ymlBroken : string := "{authors: [".

Definition record (authors : list string) (sponsor discussion : string) : JsValue :=
  JObj [("authors", JArr (map JStr authors));
        ("sponsor", JStr sponsor);
        ("discussion", JStr discussion)].

Definition documents : list (string * JsValue) :=
  [(ymlValid,
    record ["Jane Doe <jane@example.com>"; "jane@example.com"] "@alice"
      "https://example.com/discuss/42");
   (ymlBadSponsor,
    record ["jane@example.com"] "alice" "https://example.com/discuss/42");
   (ymlAllBad,
    record ["jane@example.com"; "Jane Doe"; "nobody"] "alice" "not a url");
   (ymlNoSponsor,
    JObj [("authors", JArr [JStr "jane@example.com"]);
          ("discussion", JStr "https://example.com/discuss/42")]);
   (ymlSequence, JArr [JStr "a"; JStr "b"]);
   (ymlScalar, JNum 42)].

Fixpoint lookupDocument (content : string) (table : list (string * JsValue)) : option JsValue :=
  match table with
  | [] => None
  | (c, v) :: rest => if String.eqb content c then Some v else lookupDocument content rest
  end.

Definition parse (content : string) : JsValue + string :=
  match lookupDocument content documents with
  | Some v => inl v
  | None => inr "Flow sequence in block collection must be sufficiently indented and end with a ]"
  end.

(** *** Schema and format checkers *)

Definition isString (v : JsValue) : bool :=
  match v with JStr _ => true | _ => false end.

Definition isStringArray (v : JsValue) : bool :=
  match v with JArr items => forallb isString items | _ => false end.

Definition checkField (props : list (string * JsValue)) (k : string)
    (ok : JsValue -> bool) (expected : string) : list ErrorObject :=
  match lookupProp k props with
  | None => [{| instancePath := ""; message := "must have required property '" ++ k ++ "'" |}]
  | Some v => if ok v then [] else [{| instancePath := "/" ++ k; message := "must be " ++ expected |}]
  end.

(** Modelled from the spec: the schema document [metadata.schema.json] is
    not among the sources.  The specification says it requires at least
    [authors] (array of string), [sponsor] (string) and [discussion]
    (string) of a mapping; this validator requires exactly that. *)
Definition schema (v : JsValue) : AjvResult :=
  match v with
  | JObj props =>
      let errs :=
        (checkField props "authors" isStringArray "array"
         ++ checkField props "sponsor" isString "string"
         ++ checkField props "discussion" isString "string")%list in
      {| valid := match errs with [] => true | _ => false end; errors := errs |}
  | _ => {| valid := false; errors := [{| instancePath := ""; message := "must be object" |}] |}
  end.

Fixpoint contains (c : ascii) (s : string) : bool :=
  match s with
  | EmptyString => false
  | String c' s' => Ascii.eqb c' c || contains c s'
  end.

(** Stand-in for [validator.isEmail]: the strings with an at sign. *)
Definition looksLikeEmail (s : string) : bool := contains "@" s.

(** Stand-in for [validator.isURL]: the strings with an http(s) scheme. *)
Definition looksLikeURL (s : string) : bool :=
  String.prefix "https://" s || String.prefix "http://" s.

Definition host (table : list (string * Node)) : Host :=
  {| __dirname := "/gaps/scripts";
     basename := posixBasename;
     join := posixJoin;
     existsSync := exists_ table;
     statSync := stat table;
     readdirSync := readdir table;
     readFileSync := readFile table;
     parseYaml := parse;
     validateMetadataSchema := schema;
     isEmail := looksLikeEmail;
     isURL := looksLikeURL |}.

(** *** Two repositories *)

Definition root : string := "/gaps/scripts/..".

Definition gapDirectory (name yml : string) : list (string * Node) :=
  [(posixJoin root name, Dir ["README.md"; "metadata.yml"]);
   (posixJoin (posixJoin root name) "README.md", File "# Proposal");
   (posixJoin (posixJoin root name) "metadata.yml", File yml)].

(** Three proposals, the second with a sponsor that lacks the at sign, a
    plain file whose name begins with GAP-, and a few more directories that
    the root does not list. *)
Definition repository : list (string * Node) :=
  ((root, Dir ["GAP-0001"; "GAP-0002"; "GAP-0003"; "GAP-notes.txt"; "scripts"])
   :: (posixJoin root "GAP-notes.txt", File "notes")
   :: (posixJoin root "scripts", Dir ["validate-structure.js"])
   :: gapDirectory "GAP-0001" ymlValid
   ++ gapDirectory "GAP-0002" ymlBadSponsor
   ++ gapDirectory "GAP-0003" ymlValid
   ++ gapDirectory "GAP-0004" ymlAllBad
   ++ gapDirectory "GAP-0005" ymlNoSponsor
   ++ gapDirectory "GAP-0006" ymlSequence
   ++ gapDirectory "GAP-0007" ymlScalar
   ++ gapDirectory "GAP-0008" ymlBroken
   ++ [(posixJoin root "GAP-0009", Dir [])])%list.

(** A repository without any proposal. *)
Definition emptyRepository : list (string * Node) :=
  [(root, Dir ["README.md"; "GAP-notes.txt"; "scripts"]);
   (posixJoin root "README.md", File "# GAPs");
   (posixJoin root "GAP-notes.txt", File "notes");
   (posixJoin root "scripts", Dir ["validate-structure.js"])].

End Sample.

(** ** Vocabulary for the whole run *)

(** The script keeps its own output in order when every line it printed
    went through [console.log], except for at most one [console.error]
    message, which is then the last line it printed and is followed by
    [process.exit(1)]. *)
Definition orderlyOutput {A} (p : Proc A) : Prop :=
  exists outs : list string,
    (exists a, p = (map Out outs, Normal a)) \/
    (exists m, p = ((map Out outs ++ [Err m])%list, Exited 1)) \/
    (exists e, p = (map Out outs, Thrown e)).

(** The lines of a text: the pieces between its newline characters. *)
Fixpoint splitLines (s : string) : list string :=
  match s with
  | EmptyString => [EmptyString]
  | String c s' =>
      if Ascii.eqb c "010"%char then EmptyString :: splitLines s'
      else
        match splitLines s' with
        | line :: others => String c line :: others
        | [] => [String c EmptyString]
        end
  end.

(** [kept] is what remains of [all] when it is walked from left to right
    and exactly the elements with property [P] are kept. *)
Inductive KeptInOrder {A} (P : A -> Prop) : list A -> list A -> Prop :=
| kept_nil : KeptInOrder P [] []
| kept_keep x all kept : P x -> KeptInOrder P all kept -> KeptInOrder P (x :: all) (x :: kept)
| kept_drop x all kept : ~ P x -> KeptInOrder P all kept -> KeptInOrder P (x :: all) kept.

(** ** Further sample hosts *)

(** Two proposals, both in order. *)
Definition healthyRepository : list (string * Sample.Node) :=
  ((Sample.root, Sample.Dir ["GAP-0001"; "LICENSE"; "GAP-0002"])
   :: (Sample.posixJoin Sample.root "LICENSE", Sample.File "MIT")
   :: Sample.gapDirectory "GAP-0001" Sample.ymlValid
   ++ Sample.gapDirectory "GAP-0002" Sample.ymlValid)%list.

(** The sample host over [Sample.repository], with a parser that returns
    [v] whatever the file holds. *)
Definition hostParsing (v : JsValue) : Host :=
  {| __dirname := "/gaps/scripts";
     basename := Sample.posixBasename;
     join := Sample.posixJoin;
     existsSync := Sample.exists_ Sample.repository;
     statSync := Sample.stat Sample.repository;
     readdirSync := Sample.readdir Sample.repository;
     readFileSync := Sample.readFile Sample.repository;
     parseYaml := fun _ => inl v;
     validateMetadataSchema := Sample.schema;
     isEmail := Sample.looksLikeEmail;
     isURL := Sample.looksLikeURL |}.

(** A mapping with two schema errors: the sponsor is a number and the
    discussion is missing. *)
Definition sparseRecord : JsValue :=
  JObj [("authors", JArr []); ("sponsor", JNum 7)].

(** The same host with a schema that accepts everything. *)
Definition laxHost (v : JsValue) : Host :=
  {| __dirname := "/gaps/scripts";
     basename := Sample.posixBasename;
     join := Sample.posixJoin;
     existsSync := Sample.exists_ Sample.repository;
     statSync := Sample.stat Sample.repository;
     readdirSync := Sample.readdir Sample.repository;
     readFileSync := Sample.readFile Sample.repository;
     parseYaml := fun _ => inl v;
     validateMetadataSchema := fun _ => {| valid := true; errors := [] |};
     isEmail := Sample.looksLikeEmail;
     isURL := Sample.looksLikeURL |}.

(** ** The e-mail check of the validator package *)

(** The option of [validator.isEmail] that the script sets. *)
Record IsEmailOptions : Type := { allow_display_name : bool }.

(** What is left of [s] without its last character, when that is [c]. *)
Fixpoint stripLast (c : ascii) (s : string) : option string :=
  match s with
  | EmptyString => None
  | String a rest =>
      match rest with
      | EmptyString => if Ascii.eqb a c then Some EmptyString else None
      | String _ _ =>
          match stripLast c rest with
          | Some r => Some (String a r)
          | None => None
          end
      end
  end.

(** [s] can be cut into a non-empty display name, a space, "<", an address
    that [bare] accepts, and ">".  Every cut is tried. *)
Fixpoint displayNameAddress (bare : string -> bool) (s : string) : bool :=
  match s with
  | EmptyString => false
  | String _ rest =>
      match stripPrefix " <" rest with
      | Some tail =>
          match stripLast ">" tail with
          | Some address => bare address
          | None => false
          end
      | None => false
      end
      || displayNameAddress bare rest
  end.

(** Modelled from the spec: the package [validator] is not among the
    sources.  The specification says of the author check that an entry
    "must parse as either a bare email address or a "Display Name <email>"
    form", which the script asks for by passing [allow_display_name: true]
    to [validator.isEmail].  [bare] is the package's verdict on a bare
    address, the one it gives without the option. *)
Definition validatorIsEmail (bare : string -> bool) (s : string)
    (options : IsEmailOptions) : bool :=
  bare s || (allow_display_name options && displayNameAddress bare s).

(** The form Display Name <email>, in the words of the specification. *)
Definition displayNameForm (bare : string -> bool) (s : string) : Prop :=
  exists name address,
    name <> "" /\ s = name ++ " <" ++ address ++ ">" /\ bare address = true.

Definition bareOrDisplayName (bare : string -> bool) (s : string) : Prop :=
  bare s = true \/ displayNameForm bare s.

(** A stand-in for the verdict on a bare address: an at sign, no space and
    no angle bracket. *)
Definition bareAddress (s : string) : bool :=
  Sample.contains "@" s
  && negb (Sample.contains " " s)
  && negb (Sample.contains "<" s)
  && negb (Sample.contains ">" s).

(** The sample host over [Sample.repository] with the modelled e-mail
    check. *)
Definition modelledValidatorHost : Host :=
  {| __dirname := "/gaps/scripts";
     basename := Sample.posixBasename;
     join := Sample.posixJoin;
     existsSync := Sample.exists_ Sample.repository;
     statSync := Sample.stat Sample.repository;
     readdirSync := Sample.readdir Sample.repository;
     readFileSync := Sample.readFile Sample.repository;
     parseYaml := Sample.parse;
     validateMetadataSchema := Sample.schema;
     isEmail := fun s => validatorIsEmail bareAddress s {| allow_display_name := true |};
     isURL := Sample.looksLikeURL |}.

(** * Properties *)

(** ** Laws of the process monad *)

Section ProcLaws.
Context {A B C : Type}.

Lemma bind_ret_l (a : A) (f : A -> Proc B) : bind (ret a) f = f a.
Proof. unfold bind, ret. destruct (f a) as [out c]. reflexivity. Qed.

Lemma bind_ret_r (m : Proc A) : bind m ret = m.
Proof.
  destruct m as [out [a | n | e]]; simpl; try reflexivity.
  now rewrite app_nil_r.
Qed.

Lemma bind_assoc (m : Proc A) (f : A -> Proc B) (g : B -> Proc C) :
  bind (bind m f) g = bind m (fun a => bind (f a) g).
Proof.
  destruct m as [out [a | n | e]]; simpl; try reflexivity.
  destruct (f a) as [out1 [b | n | e]]; simpl; try reflexivity.
  destruct (g b) as [out2 c]. now rewrite app_assoc.
Qed.

Lemma bind_exited (out : list Line) (n : Z) (f : A -> Proc B) :
  bind (out, Exited n) f = (out, Exited n).
Proof. reflexivity. Qed.

Lemma bind_thrown (out : list Line) (e : string) (f : A -> Proc B) :
  bind (out, Thrown e) f = (out, Thrown e).
Proof. reflexivity. Qed.

End ProcLaws.

Lemma error_is_failure {A} (gapName : string) (f : Failure) :
  @New.error A gapName (describe f) = fails gapName f.
Proof. reflexivity. Qed.

Lemma fails_bind {A B} (gapName : string) (f : Failure) (k : A -> Proc B) :
  bind (fails gapName f) k = fails gapName f.
Proof. reflexivity. Qed.

Lemma when_true (body : Proc unit) : when_ true body = body.
Proof. reflexivity. Qed.

Lemma when_false (body : Proc unit) : when_ false body = ret tt.
Proof. reflexivity. Qed.

(** ** Strings and patterns *)

Lemma stripPrefix_spec (p s rest : string) :
  stripPrefix p s = Some rest <-> s = p ++ rest.
Proof.
  revert s. induction p as [| a p IH]; intros s; simpl.
  - split; [intros [= ->] | intros ->]; reflexivity.
  - destruct s as [| b s]; [split; discriminate |].
    destruct (Ascii.eqb_spec a b) as [-> | Hne].
    + rewrite IH. split; [intros -> | intros [= ->]]; reflexivity.
    + split; [discriminate | intros [= Hb _]; congruence].
Qed.

Lemma prefix_beginsWith (p s : string) :
  String.prefix p s = true <-> beginsWith p s.
Proof.
  unfold beginsWith. revert s. induction p as [| a p IH]; intros s.
  - split; [intros _; now exists s | intros _; now destruct s].
  - destruct s as [| b s]; simpl.
    + split; [discriminate | intros [rest [=]]].
    + destruct (ascii_dec a b) as [-> | Hne].
      * rewrite IH. split; intros [rest E]; exists rest; [now subst | now injection E].
      * split; [discriminate | intros [rest [= Hb _]]; congruence].
Qed.

Lemma firstCharIs_beginsWith (c : ascii) (s : string) :
  firstCharIs c s = true <-> beginsWith (String c EmptyString) s.
Proof.
  unfold beginsWith. destruct s as [| c' s]; simpl.
  - split; [discriminate | intros [rest [=]]].
  - destruct (Ascii.eqb_spec c' c) as [-> | Hne].
    + split; [intros _; now exists s | reflexivity].
    + split; [discriminate | intros [rest [= Hc _]]; congruence].
Qed.

Lemma startsWith_firstChar (c : ascii) (s : string) :
  startsWith s (String c EmptyString) = firstCharIs c s.
Proof.
  unfold startsWith. destruct s as [| c' s]; simpl; [reflexivity |].
  destruct (ascii_dec c c') as [-> | Hne].
  - rewrite Ascii.eqb_refl. now destruct s.
  - symmetry. apply Ascii.eqb_neq. congruence.
Qed.

Lemma isDigit_decimalDigit (c : ascii) : isDigit c = true <-> decimalDigit c.
Proof.
  unfold decimalDigit. split.
  - destruct c as [[] [] [] [] [] [] [] []]; vm_compute; intros H;
      solve [discriminate H | intuition].
  - simpl. intros H.
    repeat (destruct H as [<- | H]; [reflexivity |]). destruct H.
Qed.

Lemma digits4_spec (s : string) :
  digits 4 s = true <->
  exists d1 d2 d3 d4,
    decimalDigit d1 /\ decimalDigit d2 /\ decimalDigit d3 /\ decimalDigit d4 /\
    s = String d1 (String d2 (String d3 (String d4 EmptyString))).
Proof.
  split.
  - destruct s as [| d1 [| d2 [| d3 [| d4 [| ? ?]]]]]; simpl;
      rewrite ?andb_false_r; try discriminate.
    rewrite !andb_true_iff, !isDigit_decimalDigit.
    intros (H1 & H2 & H3 & H4 & _). now exists d1, d2, d3, d4.
  - intros (d1 & d2 & d3 & d4 & H1 & H2 & H3 & H4 & ->). simpl.
    apply isDigit_decimalDigit in H1, H2, H3, H4.
    now rewrite H1, H2, H3, H4.
Qed.

Lemma re_GAP_NNNN_spec (s : string) :
  re_GAP_NNNN s = true <->
  exists d1 d2 d3 d4,
    decimalDigit d1 /\ decimalDigit d2 /\ decimalDigit d3 /\ decimalDigit d4 /\
    s = "GAP-" ++ String d1 (String d2 (String d3 (String d4 EmptyString))).
Proof.
  unfold re_GAP_NNNN. split.
  - destruct (stripPrefix "GAP-" s) as [rest |] eqn:E; [| discriminate].
    apply stripPrefix_spec in E. rewrite digits4_spec.
    intros (d1 & d2 & d3 & d4 & H1 & H2 & H3 & H4 & ->).
    now exists d1, d2, d3, d4.
  - intros (d1 & d2 & d3 & d4 & H1 & H2 & H3 & H4 & ->).
    replace (stripPrefix "GAP-" _) with
      (Some (String d1 (String d2 (String d3 (String d4 EmptyString)))))
      by (symmetry; now apply stripPrefix_spec).
    apply digits4_spec. now exists d1, d2, d3, d4.
Qed.

(** ** Directory naming *)

Lemma validateDirectoryNaming_cases (h : Host) (dirPath : string) :
  New.validateDirectoryNaming h dirPath =
    if String.eqb (basename h dirPath) "GAP-0" || re_GAP_NNNN (basename h dirPath)
    then ret (basename h dirPath)
    else fails (basename h dirPath) BadName.
Proof.
  unfold New.validateDirectoryNaming.
  destruct (String.eqb (basename h dirPath) "GAP-0"); [reflexivity |].
  destruct (re_GAP_NNNN (basename h dirPath)); reflexivity.
Qed.

Lemma wellNamed_test (name : string) :
  String.eqb name "GAP-0" || re_GAP_NNNN name = true <-> wellNamed name.
Proof.
  unfold wellNamed. now rewrite orb_true_iff, String.eqb_eq, re_GAP_NNNN_spec.
Qed.

(** C2.  The naming check of a directory path returns normally, printing
    nothing, exactly when the base name of the path is [GAP-0] or [GAP-]
    followed by exactly four decimal digits; for every other base name it
    prints the naming error and exits with status 1. *)
Theorem naming_check_iff_well_named (h : Host) (dirPath : string) :
  (New.validateDirectoryNaming h dirPath = ret (basename h dirPath)
   <-> wellNamed (basename h dirPath)) /\
  (New.validateDirectoryNaming h dirPath = ret (basename h dirPath) \/
   New.validateDirectoryNaming h dirPath = fails (basename h dirPath) BadName).
Proof.
  rewrite validateDirectoryNaming_cases, <- wellNamed_test.
  destruct (_ || _).
  - split; [split; auto | auto].
  - split; [split; discriminate | auto].
Qed.

Example naming_accepts_GAP_0042 :
  New.validateDirectoryNaming (Sample.host []) "/gaps/GAP-0042/" = ret "GAP-0042".
Proof. reflexivity. Qed.

Example naming_rejects_five_digits :
  New.validateDirectoryNaming (Sample.host []) "GAP-00042" = fails "GAP-00042" BadName.
Proof. reflexivity. Qed.

Example naming_rejects_GAP_1 :
  New.validateDirectoryNaming (Sample.host []) "GAP-1" = fails "GAP-1" BadName.
Proof. reflexivity. Qed.

(** ** Loops *)

Lemma forOf_map {A B} (g : A -> B) (xs : list A) (body : B -> Proc unit) :
  forOf (map g xs) body = forOf xs (fun x => body (g x)).
Proof.
  induction xs as [| x xs IH]; cbn [forOf map]; [reflexivity | now rewrite IH].
Qed.

Lemma forOf_app {A} (xs ys : list A) (body : A -> Proc unit) :
  forOf (xs ++ ys) body = (forOf xs body ;; forOf ys body).
Proof.
  induction xs as [| x xs IH]; cbn [forOf app].
  - now rewrite bind_ret_l.
  - now rewrite IH, bind_assoc.
Qed.

(** A loop whose body either does nothing or aborts stops at the first
    element on which it aborts. *)
Lemma forOf_first_failure {A} (xs : list A) (body : A -> Proc unit)
    (bad : A -> bool) (failure : A -> list Line * Z) :
  (forall x, body x = if bad x then (fst (failure x), Exited (snd (failure x))) else ret tt) ->
  forOf xs body =
    match find bad xs with
    | Some x => (fst (failure x), Exited (snd (failure x)))
    | None => ret tt
    end.
Proof.
  intros Hbody. induction xs as [| x xs IH]; cbn [forOf find]; [reflexivity |].
  rewrite Hbody. destruct (bad x); [reflexivity |].
  now rewrite bind_ret_l.
Qed.

(** ** Metadata validation, stage by stage *)

Lemma append_assoc (a b c : string) : (a ++ b) ++ c = a ++ b ++ c.
Proof. induction a as [| x a IH]; simpl; [reflexivity | now rewrite IH]. Qed.

Lemma schema_errors_rendered (errs : list ErrorObject) :
  map (fun err =>
         (if String.eqb (instancePath err) "" then "" else instancePath err ++ ": ")
         ++ message err) errs
  = map renderSchemaError errs.
Proof.
  apply map_ext. intros [path msg]. unfold renderSchemaError. simpl.
  destruct path as [| c path]; [reflexivity |].
  simpl. now rewrite append_assoc.
Qed.

Section MetadataStages.
Variable h : Host.
Variables dirPath gapName : string.

Lemma validateMetadata_missing :
  existsSync h (join h dirPath "metadata.yml") = false ->
  New.validateMetadata h dirPath gapName = fails gapName NoMetadata.
Proof. intros E. unfold New.validateMetadata. rewrite E. reflexivity. Qed.

Lemma validateMetadata_unreadable (err : string) :
  existsSync h (join h dirPath "metadata.yml") = true ->
  readFileSync h (join h dirPath "metadata.yml") = inr err ->
  New.validateMetadata h dirPath gapName = fails gapName (Unreadable err).
Proof.
  intros E R. unfold New.validateMetadata. rewrite E, R. reflexivity.
Qed.

Lemma validateMetadata_bad_yaml (content err : string) :
  existsSync h (join h dirPath "metadata.yml") = true ->
  readFileSync h (join h dirPath "metadata.yml") = inl content ->
  parseYaml h content = inr err ->
  New.validateMetadata h dirPath gapName = fails gapName (BadYaml err).
Proof.
  intros E R P. unfold New.validateMetadata. rewrite E, R. simpl negb.
  rewrite when_false, !bind_ret_l, P. reflexivity.
Qed.

(** Once the file has been parsed, what is left of [validateMetadata]
    depends on the parsed value only. *)
Lemma validateMetadata_parsed (v : JsValue) :
  metadataParsesTo h dirPath v ->
  New.validateMetadata h dirPath gapName =
    (when_ (negb (String.eqb (typeof v) "object")) (fails gapName NotAnObject) ;;
     when_ (negb (valid (validateMetadataSchema h v)))
       (fails gapName (SchemaViolation (errors (validateMetadataSchema h v)))) ;;
     authors <- getProp v "authors" ;;
     entries <- iterate authors ;;
     forOf entries (fun author =>
       s <- assertString author ;;
       when_ (negb (isEmail h s)) (fails gapName (BadAuthor s))) ;;
     sponsor <- getProp v "sponsor" ;;
     atSign <- callStartsWith sponsor "@" ;;
     when_ (negb atSign)
       (fails gapName (BadSponsor match sponsor with JStr s => s | _ => "" end)) ;;
     discussion <- getProp v "discussion" ;;
     url <- assertString discussion ;;
     when_ (negb (isURL h url)) (fails gapName (BadDiscussion url))).
Proof.
  intros (E & content & R & P). unfold New.validateMetadata.
  rewrite E, R. simpl negb. rewrite when_false, !bind_ret_l, P, bind_ret_l.
  rewrite schema_errors_rendered. reflexivity.
Qed.

Lemma validateMetadata_scalar (v : JsValue) :
  metadataParsesTo h dirPath v ->
  String.eqb (typeof v) "object" = false ->
  New.validateMetadata h dirPath gapName = fails gapName NotAnObject.
Proof.
  intros P T. rewrite (validateMetadata_parsed v P), T. reflexivity.
Qed.

Lemma validateMetadata_schema_violation (v : JsValue) :
  metadataParsesTo h dirPath v ->
  String.eqb (typeof v) "object" = true ->
  valid (validateMetadataSchema h v) = false ->
  New.validateMetadata h dirPath gapName =
    fails gapName (SchemaViolation (errors (validateMetadataSchema h v))).
Proof.
  intros P T V. rewrite (validateMetadata_parsed v P), T, V. simpl negb.
  rewrite when_false, bind_ret_l. reflexivity.
Qed.

Lemma author_loop (authors : list string) :
  forOf (map JStr authors) (fun author =>
    s <- assertString author ;;
    when_ (negb (isEmail h s)) (fails gapName (BadAuthor s)))
  = match find (fun a => negb (isEmail h a)) authors with
    | Some a => fails gapName (BadAuthor a)
    | None => ret tt
    end.
Proof.
  rewrite forOf_map.
  apply (forOf_first_failure authors _ (fun a => negb (isEmail h a))
           (fun a => ([Err (gapName ++ ": " ++ describe (BadAuthor a))], 1%Z))).
  intros a. simpl assertString. rewrite bind_ret_l.
  destruct (isEmail h a); reflexivity.
Qed.

Lemma validateMetadata_shaped (v : JsValue) (authors : list string)
    (sponsor discussion : string) :
  metadataParsesTo h dirPath v ->
  valid (validateMetadataSchema h v) = true ->
  shaped v authors sponsor discussion ->
  New.validateMetadata h dirPath gapName =
    semanticVerdict h gapName authors sponsor discussion.
Proof.
  intros P V (props & -> & Ha & Hs & Hd).
  rewrite (validateMetadata_parsed _ P), V. simpl negb. simpl typeof.
  change (negb ("object" =? "object")) with false.
  rewrite !when_false, !bind_ret_l.
  unfold getProp. rewrite Ha, Hs, Hd, bind_ret_l. simpl iterate.
  rewrite bind_ret_l, author_loop. unfold semanticVerdict.
  destruct (find _ authors) as [a |]; [reflexivity |].
  rewrite !bind_ret_l. simpl callStartsWith. rewrite bind_ret_l.
  rewrite startsWith_firstChar.
  destruct (firstCharIs "@" sponsor); [| reflexivity].
  simpl negb. rewrite when_false, !bind_ret_l. simpl assertString.
  rewrite bind_ret_l. destruct (isURL h discussion); reflexivity.
Qed.

(** A sequence or [null] at the top level passes the [typeof] test. *)
Lemma validateMetadata_sequence (items : list JsValue) :
  metadataParsesTo h dirPath (JArr items) ->
  New.validateMetadata h dirPath gapName =
    if valid (validateMetadataSchema h (JArr items))
    then throw "TypeError: metadata.authors is not iterable"
    else fails gapName (SchemaViolation (errors (validateMetadataSchema h (JArr items)))).
Proof.
  intros P. rewrite (validateMetadata_parsed _ P). simpl typeof.
  change (negb ("object" =? "object")) with false.
  rewrite when_false, bind_ret_l.
  destruct (valid (validateMetadataSchema h (JArr items))); reflexivity.
Qed.

Lemma validateMetadata_null :
  metadataParsesTo h dirPath JNull ->
  New.validateMetadata h dirPath gapName =
    if valid (validateMetadataSchema h JNull)
    then throw "TypeError: Cannot read properties of null (reading 'authors')"
    else fails gapName (SchemaViolation (errors (validateMetadataSchema h JNull))).
Proof.
  intros P. rewrite (validateMetadata_parsed _ P). simpl typeof.
  change (negb ("object" =? "object")) with false.
  rewrite when_false, bind_ret_l.
  destruct (valid (validateMetadataSchema h JNull)); reflexivity.
Qed.

End MetadataStages.

(** ** Telling failures apart *)

Lemma append_cancel_l (p x y : string) : p ++ x = p ++ y -> x = y.
Proof.
  induction p as [| c p IH]; simpl; [auto | intros [= E]; auto].
Qed.

Lemma fails_inj {A} (gapName : string) (f f' : Failure) :
  @fails A gapName f = fails gapName f' -> describe f = describe f'.
Proof.
  unfold fails. intros [= E]. apply append_cancel_l in E.
  now injection E.
Qed.

Lemma find_first {A} (bad : A -> bool) (good : list A) (x : A) (rest : list A) :
  (forall a, In a good -> bad a = false) -> bad x = true ->
  find bad (good ++ x :: rest) = Some x.
Proof.
  intros G X. induction good as [| g good IH]; simpl.
  - now rewrite X.
  - rewrite (G g) by now left. apply IH. intros a Ha. apply G. now right.
Qed.

Lemma find_all_good {A} (bad : A -> bool) (xs : list A) :
  (forall a, In a xs -> bad a = false) -> find bad xs = None.
Proof.
  intros G. induction xs as [| x xs IH]; simpl; [reflexivity |].
  rewrite (G x) by now left. apply IH. intros a Ha. apply G. now right.
Qed.

(** ** The top-level type test *)

(** C3.  A [metadata.yml] whose top level is a YAML sequence is not stopped
    by the type test: [typeof] of an array is "object", so the schema
    validator is called on the sequence, and what happens next is decided
    by it.  The "must contain a valid YAML object" error is never the
    outcome. *)
Theorem sequence_passes_type_test (h : Host) (dirPath gapName : string)
    (items : list JsValue) :
  metadataParsesTo h dirPath (JArr items) ->
  New.validateMetadata h dirPath gapName =
    (if valid (validateMetadataSchema h (JArr items))
     then throw "TypeError: metadata.authors is not iterable"
     else fails gapName
            (SchemaViolation (errors (validateMetadataSchema h (JArr items)))))
  /\ New.validateMetadata h dirPath gapName <> fails gapName NotAnObject.
Proof.
  intros P. rewrite (validateMetadata_sequence h dirPath gapName items P).
  split; [reflexivity |].
  destruct (valid (validateMetadataSchema h (JArr items))); [discriminate |].
  intros E. apply fails_inj in E. discriminate E.
Qed.

Lemma sample_GAP_0006_parses :
  metadataParsesTo (Sample.host Sample.repository) "/gaps/scripts/../GAP-0006"
    (JArr [JStr "a"; JStr "b"]).
Proof.
  split; [reflexivity |]. exists Sample.ymlSequence. split; reflexivity.
Qed.

Lemma sequence_passes_type_test_witness :
  New.validateMetadata (Sample.host Sample.repository)
    "/gaps/scripts/../GAP-0006" "GAP-0006"
  = fails "GAP-0006"
      (SchemaViolation [{| instancePath := ""; message := "must be object" |}]).
Proof.
  exact (proj1 (sequence_passes_type_test (Sample.host Sample.repository)
                  "/gaps/scripts/../GAP-0006" "GAP-0006" [JStr "a"; JStr "b"]
                  sample_GAP_0006_parses)).
Defined.

(** Scalars are stopped by the type test. *)
Lemma scalar_fails_type_test (h : Host) (dirPath gapName : string) (v : JsValue) :
  metadataParsesTo h dirPath v ->
  (exists b, v = JBool b) \/ (exists n, v = JNum n) \/ (exists s, v = JStr s) ->
  New.validateMetadata h dirPath gapName = fails gapName NotAnObject.
Proof.
  intros P S. apply (validateMetadata_scalar h dirPath gapName v P).
  destruct S as [[b ->] | [[n ->] | [s ->]]]; reflexivity.
Qed.

(** ** The semantic checks *)

(** C4.  On a metadata file that parses to a mapping: when the schema
    rejects it, the schema error is the outcome and no semantic check has a
    say; when the schema accepts it, the first invalid author is reported
    whatever the sponsor and the discussion are, a bad sponsor is reported
    only if every author is valid and whatever the discussion is, and a bad
    discussion is reported only if authors and sponsor are fine. *)
Theorem semantic_checks_in_order (h : Host) (dirPath gapName : string) (v : JsValue) :
  metadataParsesTo h dirPath v ->
  String.eqb (typeof v) "object" = true ->
  (valid (validateMetadataSchema h v) = false ->
   New.validateMetadata h dirPath gapName =
     fails gapName (SchemaViolation (errors (validateMetadataSchema h v)))) /\
  (forall authors sponsor discussion,
     valid (validateMetadataSchema h v) = true ->
     shaped v authors sponsor discussion ->
     (forall good bad rest,
        authors = (good ++ bad :: rest)%list ->
        (forall a, In a good -> isEmail h a = true) ->
        isEmail h bad = false ->
        New.validateMetadata h dirPath gapName = fails gapName (BadAuthor bad)) /\
     ((forall a, In a authors -> isEmail h a = true) ->
      firstCharIs "@" sponsor = false ->
      New.validateMetadata h dirPath gapName = fails gapName (BadSponsor sponsor)) /\
     ((forall a, In a authors -> isEmail h a = true) ->
      firstCharIs "@" sponsor = true ->
      isURL h discussion = false ->
      New.validateMetadata h dirPath gapName = fails gapName (BadDiscussion discussion)) /\
     ((forall a, In a authors -> isEmail h a = true) ->
      firstCharIs "@" sponsor = true ->
      isURL h discussion = true ->
      New.validateMetadata h dirPath gapName = ret tt)).
Proof.
  intros P T. split.
  - intros V. now apply validateMetadata_schema_violation.
  - intros authors sponsor discussion V S.
    rewrite (validateMetadata_shaped h dirPath gapName v authors sponsor discussion P V S).
    unfold semanticVerdict. repeat split.
    + intros good bad rest -> G B.
      rewrite (find_first _ good bad rest); [reflexivity | | now rewrite B].
      intros a Ha. now rewrite (G a Ha).
    + intros G A. rewrite find_all_good, A; [reflexivity |].
      intros a Ha. now rewrite (G a Ha).
    + intros G A U. rewrite find_all_good, A, U; [reflexivity |].
      intros a Ha. now rewrite (G a Ha).
    + intros G A U. rewrite find_all_good, A, U; [reflexivity |].
      intros a Ha. now rewrite (G a Ha).
Qed.

Lemma sample_GAP_0004_parses :
  metadataParsesTo (Sample.host Sample.repository) "/gaps/scripts/../GAP-0004"
    (Sample.record ["jane@example.com"; "Jane Doe"; "nobody"] "alice" "not a url").
Proof.
  split; [reflexivity |]. exists Sample.ymlAllBad. split; reflexivity.
Qed.

Lemma sample_record_shaped (authors : list string) (sponsor discussion : string) :
  shaped (Sample.record authors sponsor discussion) authors sponsor discussion.
Proof. eexists. repeat split; reflexivity. Qed.

Lemma sample_only_jane_before (a : string) :
  In a ["jane@example.com"] -> Sample.looksLikeEmail a = true.
Proof. intros [<- | []]. reflexivity. Qed.

(** A record that violates all three checks: only the author error shows. *)
Lemma semantic_checks_in_order_witness :
  New.validateMetadata (Sample.host Sample.repository)
    "/gaps/scripts/../GAP-0004" "GAP-0004"
  = fails "GAP-0004" (BadAuthor "Jane Doe").
Proof.
  exact (proj1 (proj2 (semantic_checks_in_order (Sample.host Sample.repository)
                         "/gaps/scripts/../GAP-0004" "GAP-0004" _
                         sample_GAP_0004_parses eq_refl)
                  ["jane@example.com"; "Jane Doe"; "nobody"] "alice" "not a url"
                  eq_refl (sample_record_shaped _ _ _))
           ["jane@example.com"] "Jane Doe" ["nobody"]
           eq_refl sample_only_jane_before eq_refl).
Defined.

Lemma stripLast_sound (c : ascii) (s r : string) :
  stripLast c s = Some r -> s = r ++ String c EmptyString.
Proof.
  revert r. induction s as [| a rest IH]; intros r; [discriminate |].
  cbn [stripLast]. destruct rest as [| b rest'].
  - destruct (Ascii.eqb_spec a c) as [-> | N]; [now intros [= <-] | discriminate].
  - destruct (stripLast c (String b rest')) as [r' |]; [| discriminate].
    intros [= <-]. simpl. f_equal. now apply IH.
Qed.

Lemma stripLast_complete (c : ascii) (r : string) :
  stripLast c (r ++ String c EmptyString) = Some r.
Proof.
  induction r as [| x r IH].
  - simpl. now rewrite Ascii.eqb_refl.
  - change (String x r ++ String c EmptyString) with (String x (r ++ String c EmptyString)).
    cbn [stripLast]. rewrite IH. now destruct r.
Qed.

Lemma stripLast_spec (c : ascii) (s r : string) :
  stripLast c s = Some r <-> s = r ++ String c EmptyString.
Proof.
  split; [apply stripLast_sound | intros ->; apply stripLast_complete].
Qed.

Lemma displayNameAddress_spec (bare : string -> bool) (s : string) :
  displayNameAddress bare s = true <-> displayNameForm bare s.
Proof.
  unfold displayNameForm. induction s as [| c rest IH].
  - split; [discriminate |].
    intros (name & address & N & E & _). destruct name; [contradiction | discriminate].
  - cbn [displayNameAddress]. rewrite orb_true_iff, IH. split.
    + intros [Here | (name & address & N & -> & B)].
      * destruct (stripPrefix " <" rest) as [tail |] eqn:P; [| discriminate].
        destruct (stripLast ">" tail) as [address |] eqn:L; [| discriminate].
        apply stripPrefix_spec in P. apply stripLast_spec in L. subst.
        exists (String c EmptyString), address. split; [discriminate | now split].
      * exists (String c name), address. split; [discriminate | now split].
    + intros (name & address & N & E & B).
      destruct name as [| c' name]; [contradiction |]. injection E as -> ->.
      destruct name as [| c'' name].
      * left. cbn [append stripPrefix Ascii.eqb Bool.eqb].
        now rewrite (stripLast_complete ">" address).
      * right. exists (String c'' name), address. split; [discriminate | now split].
Qed.

Lemma validatorIsEmail_spec (bare : string -> bool) (s : string) :
  validatorIsEmail bare s {| allow_display_name := true |} = true
  <-> bareOrDisplayName bare s.
Proof.
  unfold validatorIsEmail, bareOrDisplayName. cbn [allow_display_name andb].
  now rewrite orb_true_iff, displayNameAddress_spec.
Qed.

(** C6.  On metadata the schema accepted, the author loop accepts an entry
    exactly when [validator.isEmail] with [allow_display_name] does: if
    every entry is accepted the outcome is that of the sponsor and
    discussion checks, and otherwise the loop stops at the first entry that
    is not accepted, in sequence order, and the error message quotes that
    entry.  When the package behaves as the specification describes it, the
    entries accepted are exactly the bare e-mail addresses and the strings
    of the form Display Name <email>. *)
Theorem author_check_fails_fast (h : Host) (dirPath gapName : string) (v : JsValue)
    (authors : list string) (sponsor discussion : string) :
  metadataParsesTo h dirPath v ->
  valid (validateMetadataSchema h v) = true ->
  shaped v authors sponsor discussion ->
  (forall good bad rest,
     authors = (good ++ bad :: rest)%list ->
     (forall a, In a good -> isEmail h a = true) ->
     isEmail h bad = false ->
     New.validateMetadata h dirPath gapName
     = ([Err (gapName ++ ": metadata.yml invalid author " ++ dquote ++ bad ++ dquote
              ++ " - must be " ++ dquote ++ "Name <email>" ++ dquote
              ++ " or a valid email")],
        Exited 1)) /\
  ((forall a, In a authors -> isEmail h a = true) ->
   New.validateMetadata h dirPath gapName = semanticVerdict h gapName [] sponsor discussion) /\
  (forall bare,
     (forall s, isEmail h s = validatorIsEmail bare s {| allow_display_name := true |}) ->
     (forall a, isEmail h a = true <-> bareOrDisplayName bare a) /\
     (forall good bad rest,
        authors = (good ++ bad :: rest)%list ->
        (forall a, In a good -> bareOrDisplayName bare a) ->
        ~ bareOrDisplayName bare bad ->
        New.validateMetadata h dirPath gapName
        = ([Err (gapName ++ ": metadata.yml invalid author " ++ dquote ++ bad ++ dquote
                 ++ " - must be " ++ dquote ++ "Name <email>" ++ dquote
                 ++ " or a valid email")],
           Exited 1)) /\
     ((forall a, In a authors -> bareOrDisplayName bare a) ->
      New.validateMetadata h dirPath gapName
      = semanticVerdict h gapName [] sponsor discussion)).
Proof.
  intros P V S.
  rewrite (validateMetadata_shaped h dirPath gapName v authors sponsor discussion P V S).
  unfold semanticVerdict.
  assert (Stops : forall good bad rest,
            authors = (good ++ bad :: rest)%list ->
            (forall a, In a good -> isEmail h a = true) ->
            isEmail h bad = false ->
            match find (fun a => negb (isEmail h a)) authors with
            | Some a => fails gapName (BadAuthor a)
            | None =>
                if negb (firstCharIs "@" sponsor) then fails gapName (BadSponsor sponsor)
                else if negb (isURL h discussion)
                     then fails gapName (BadDiscussion discussion) else ret tt
            end
            = ([Err (gapName ++ ": metadata.yml invalid author " ++ dquote ++ bad ++ dquote
                     ++ " - must be " ++ dquote ++ "Name <email>" ++ dquote
                     ++ " or a valid email")],
               Exited 1)).
  { intros good bad rest -> G B.
    rewrite (find_first _ good bad rest); [reflexivity | | now rewrite B].
    intros a Ha. now rewrite (G a Ha). }
  assert (Passes : (forall a, In a authors -> isEmail h a = true) ->
            match find (fun a => negb (isEmail h a)) authors with
            | Some a => fails gapName (BadAuthor a)
            | None =>
                if negb (firstCharIs "@" sponsor) then fails gapName (BadSponsor sponsor)
                else if negb (isURL h discussion)
                     then fails gapName (BadDiscussion discussion) else ret tt
            end
            = if negb (firstCharIs "@" sponsor) then fails gapName (BadSponsor sponsor)
              else if negb (isURL h discussion)
                   then fails gapName (BadDiscussion discussion) else ret tt).
  { intros G. rewrite find_all_good; [reflexivity |].
    intros a Ha. now rewrite (G a Ha). }
  split; [exact Stops | split; [exact Passes |]].
  intros bare Contract.
  assert (Accepts : forall a, isEmail h a = true <-> bareOrDisplayName bare a)
    by (intros a; rewrite Contract; apply validatorIsEmail_spec).
  split; [exact Accepts | split].
  - intros good bad rest A G B. apply (Stops good bad rest A).
    + intros a Ha. now apply Accepts, G.
    + destruct (isEmail h bad) eqn:I; [| reflexivity].
      apply Accepts in I. contradiction.
  - intros G. apply Passes. intros a Ha. now apply Accepts, G.
Qed.

Lemma modelled_GAP_0004_parses :
  metadataParsesTo modelledValidatorHost "/gaps/scripts/../GAP-0004"
    (Sample.record ["jane@example.com"; "Jane Doe"; "nobody"] "alice" "not a url").
Proof.
  split; [reflexivity |]. exists Sample.ymlAllBad. split; reflexivity.
Qed.

Lemma modelled_only_jane_before (a : string) :
  In a ["jane@example.com"] -> bareOrDisplayName bareAddress a.
Proof. intros [<- | []]. now left. Qed.

Lemma jane_doe_is_no_address : ~ bareOrDisplayName bareAddress "Jane Doe".
Proof.
  intros B. apply validatorIsEmail_spec in B. discriminate B.
Qed.

(** Two invalid entries, "Jane Doe" and "nobody": the first is reported;
    and "Jane Doe <jane@example.com>" is accepted as a display-name form. *)
Lemma author_check_fails_fast_witness :
  New.validateMetadata modelledValidatorHost "/gaps/scripts/../GAP-0004" "GAP-0004"
  = ([Err ("GAP-0004: metadata.yml invalid author " ++ dquote ++ "Jane Doe" ++ dquote
           ++ " - must be " ++ dquote ++ "Name <email>" ++ dquote
           ++ " or a valid email")],
     Exited 1)
  /\ (isEmail modelledValidatorHost "Jane Doe <jane@example.com>" = true
      <-> bareOrDisplayName bareAddress "Jane Doe <jane@example.com>").
Proof.
  pose proof (author_check_fails_fast modelledValidatorHost
                "/gaps/scripts/../GAP-0004" "GAP-0004" _
                ["jane@example.com"; "Jane Doe"; "nobody"] "alice" "not a url"
                modelled_GAP_0004_parses eq_refl (sample_record_shaped _ _ _))
    as (_ & _ & Modelled).
  destruct (Modelled bareAddress (fun s => eq_refl)) as (Accepts & Stops & _).
  split.
  - exact (Stops ["jane@example.com"] "Jane Doe" ["nobody"] eq_refl
             modelled_only_jane_before jane_doe_is_no_address).
  - exact (Accepts "Jane Doe <jane@example.com>").
Defined.

(** C7.  On metadata the schema accepted and whose authors are all valid,
    the sponsor check passes (the outcome is then that of the discussion
    check) exactly when the sponsor string begins with "@", and fails with
    the sponsor error otherwise; two sponsor strings with the same first
    character get the same verdict. *)
Theorem sponsor_check_iff_at_sign (h : Host) (dirPath gapName : string) (v : JsValue)
    (authors : list string) (sponsor discussion : string) :
  metadataParsesTo h dirPath v ->
  valid (validateMetadataSchema h v) = true ->
  shaped v authors sponsor discussion ->
  (forall a, In a authors -> isEmail h a = true) ->
  (beginsWith "@" sponsor ->
   New.validateMetadata h dirPath gapName
   = if isURL h discussion then ret tt else fails gapName (BadDiscussion discussion)) /\
  (~ beginsWith "@" sponsor ->
   New.validateMetadata h dirPath gapName
   = ([Err (gapName
            ++ ": metadata.yml sponsor must be a GitHub username starting with @ (got "
            ++ dquote ++ sponsor ++ dquote ++ ")")],
      Exited 1)) /\
  (forall c rest rest',
     beginsWith "@" (String c rest) <-> beginsWith "@" (String c rest')).
Proof.
  intros P V S G.
  rewrite (validateMetadata_shaped h dirPath gapName v authors sponsor discussion P V S).
  unfold semanticVerdict. rewrite find_all_good.
  2:{ intros a Ha. now rewrite (G a Ha). }
  repeat split.
  - intros B. apply firstCharIs_beginsWith in B. rewrite B. simpl negb.
    destruct (isURL h discussion); reflexivity.
  - intros B. destruct (firstCharIs "@" sponsor) eqn:E; [| reflexivity].
    apply firstCharIs_beginsWith in E. contradiction.
  - intros B. apply firstCharIs_beginsWith. apply firstCharIs_beginsWith in B. exact B.
  - intros B. apply firstCharIs_beginsWith. apply firstCharIs_beginsWith in B. exact B.
Qed.

Lemma sample_GAP_0002_parses :
  metadataParsesTo (Sample.host Sample.repository) "/gaps/scripts/../GAP-0002"
    (Sample.record ["jane@example.com"] "alice" "https://example.com/discuss/42").
Proof.
  split; [reflexivity |]. exists Sample.ymlBadSponsor. split; reflexivity.
Qed.

Lemma alice_lacks_at_sign : ~ beginsWith "@" "alice".
Proof. intros [rest E]. discriminate E. Qed.

(** The sponsor "alice" is rejected. *)
Lemma sponsor_check_iff_at_sign_witness :
  New.validateMetadata (Sample.host Sample.repository)
    "/gaps/scripts/../GAP-0002" "GAP-0002"
  = ([Err ("GAP-0002: metadata.yml sponsor must be a GitHub username starting with @ (got "
           ++ dquote ++ "alice" ++ dquote ++ ")")],
     Exited 1).
Proof.
  exact (proj1 (proj2 (sponsor_check_iff_at_sign (Sample.host Sample.repository)
                         "/gaps/scripts/../GAP-0002" "GAP-0002" _
                         ["jane@example.com"] "alice" "https://example.com/discuss/42"
                         sample_GAP_0002_parses eq_refl (sample_record_shaped _ _ _)
                         sample_only_jane_before))
           alice_lacks_at_sign).
Defined.

(** The sponsor "@alice" is accepted, and the whole file with it. *)
Example sponsor_with_at_sign_passes :
  New.validateMetadata (Sample.host Sample.repository)
    "/gaps/scripts/../GAP-0001" "GAP-0001" = ret tt.
Proof. reflexivity. Qed.

(** ** Every failure of a directory is reported the same way *)

Lemma semanticVerdict_outcome (h : Host) (gapName : string)
    (authors : list string) (sponsor discussion : string) :
  semanticVerdict h gapName authors sponsor discussion = ret tt \/
  exists f, semanticVerdict h gapName authors sponsor discussion = fails gapName f.
Proof.
  unfold semanticVerdict.
  destruct (find _ authors) as [a |]; [right; now exists (BadAuthor a) |].
  destruct (firstCharIs "@" sponsor); [| right; now exists (BadSponsor sponsor)].
  destruct (isURL h discussion); [now left | right; now exists (BadDiscussion discussion)].
Qed.

Lemma validateMetadata_outcome (h : Host) (dirPath gapName : string) :
  schemaGuaranteesShape h ->
  New.validateMetadata h dirPath gapName = ret tt \/
  exists f, New.validateMetadata h dirPath gapName = fails gapName f.
Proof.
  intros Shape.
  destruct (existsSync h (join h dirPath "metadata.yml")) eqn:E.
  2:{ right. exists NoMetadata. now apply validateMetadata_missing. }
  destruct (readFileSync h (join h dirPath "metadata.yml")) as [content | err] eqn:R.
  2:{ right. exists (Unreadable err). now apply validateMetadata_unreadable. }
  destruct (parseYaml h content) as [v | err] eqn:Y.
  2:{ right. exists (BadYaml err). now apply validateMetadata_bad_yaml with content. }
  assert (P : metadataParsesTo h dirPath v) by (split; [exact E | now exists content]).
  destruct (String.eqb (typeof v) "object") eqn:T.
  2:{ right. exists NotAnObject. now apply validateMetadata_scalar with v. }
  destruct (valid (validateMetadataSchema h v)) eqn:V.
  2:{ right. exists (SchemaViolation (errors (validateMetadataSchema h v))).
      now apply validateMetadata_schema_violation. }
  destruct (Shape v V) as (authors & sponsor & discussion & S).
  rewrite (validateMetadata_shaped h dirPath gapName v authors sponsor discussion P V S).
  apply semanticVerdict_outcome.
Qed.

Lemma validateGapDirectory_checks (h : Host) (dirPath : string) (st : Stats.t) :
  existsSync h dirPath = true ->
  statSync h dirPath = inl st ->
  Stats.isDirectory st = true ->
  New.validateGapDirectory h dirPath =
    (gapName <- New.validateDirectoryNaming h dirPath ;;
     New.validateReadmeExists h dirPath gapName ;;
     New.validateMetadata h dirPath gapName ;;
     console_log (successLine gapName)).
Proof.
  intros E S D. unfold New.validateGapDirectory. rewrite E, S. simpl negb.
  rewrite when_false, bind_ret_l. cbn [uncaught]. rewrite bind_ret_l, D.
  simpl negb. rewrite when_false, bind_ret_l. reflexivity.
Qed.

(** Without any assumption on the schema, a step may also die of a
    TypeError; it never prints anything else than a failure report. *)
Section Reports.
Variable gapName : string.

Lemma reportsOrThrows_ret {A} (a : A) : reportsOrThrows gapName (ret a).
Proof. left. now exists a. Qed.

Lemma reportsOrThrows_fails {A} (f : Failure) : reportsOrThrows (A := A) gapName (fails gapName f).
Proof. right; left. now exists f. Qed.

Lemma reportsOrThrows_throw {A} (e : string) : reportsOrThrows (A := A) gapName (throw e).
Proof. right; right. now exists e. Qed.

Lemma reportsOrThrows_bind {A B} (m : Proc A) (k : A -> Proc B) :
  reportsOrThrows gapName m ->
  (forall a, reportsOrThrows gapName (k a)) ->
  reportsOrThrows gapName (bind m k).
Proof.
  intros [[a ->] | [[f ->] | [e ->]]] Hk.
  - rewrite bind_ret_l. apply Hk.
  - apply reportsOrThrows_fails.
  - apply reportsOrThrows_throw.
Qed.

Lemma reportsOrThrows_when (c : bool) (f : Failure) :
  reportsOrThrows gapName (when_ c (fails gapName f)).
Proof. destruct c; [apply reportsOrThrows_fails | apply reportsOrThrows_ret]. Qed.

Lemma reportsOrThrows_forOf {A} (xs : list A) (body : A -> Proc unit) :
  (forall x, reportsOrThrows gapName (body x)) ->
  reportsOrThrows gapName (forOf xs body).
Proof.
  intros Hb. induction xs as [| x xs IH]; cbn [forOf].
  - apply reportsOrThrows_ret.
  - apply reportsOrThrows_bind; auto.
Qed.

End Reports.

Ltac reports :=
  repeat first
    [ apply reportsOrThrows_ret
    | apply reportsOrThrows_fails
    | apply reportsOrThrows_throw
    | apply reportsOrThrows_when
    | apply reportsOrThrows_forOf; intros ?
    | apply reportsOrThrows_bind; [| intros ?]
    | match goal with
      | |- reportsOrThrows _ (match ?x with _ => _ end) => destruct x
      end ].

Lemma validateMetadata_reports (h : Host) (dirPath gapName : string) :
  reportsOrThrows gapName (New.validateMetadata h dirPath gapName).
Proof.
  destruct (existsSync h (join h dirPath "metadata.yml")) eqn:E.
  2:{ rewrite validateMetadata_missing by exact E. reports. }
  destruct (readFileSync h (join h dirPath "metadata.yml")) as [content | err] eqn:R.
  2:{ rewrite (validateMetadata_unreadable h dirPath gapName err E R). reports. }
  destruct (parseYaml h content) as [v | err] eqn:Y.
  2:{ rewrite (validateMetadata_bad_yaml h dirPath gapName content err E R Y). reports. }
  rewrite (validateMetadata_parsed h dirPath gapName v)
    by (split; [exact E | now exists content]).
  unfold getProp, iterate, assertString, callStartsWith. reports.
Qed.

(** A directory without a README fails on that, whatever its metadata
    file holds. *)
Lemma missing_readme_reported (h : Host) (dirPath : string) (st : Stats.t) :
  existsSync h dirPath = true ->
  statSync h dirPath = inl st ->
  Stats.isDirectory st = true ->
  wellNamed (basename h dirPath) ->
  existsSync h (join h dirPath "README.md") = false ->
  New.validateGapDirectory h dirPath = fails (basename h dirPath) NoReadme.
Proof.
  intros E S D W R. rewrite (validateGapDirectory_checks h dirPath st E S D).
  rewrite validateDirectoryNaming_cases. apply wellNamed_test in W. rewrite W.
  rewrite bind_ret_l. unfold New.validateReadmeExists. rewrite R. reflexivity.
Qed.

(** The sample schema accepts only mappings of the documented shape. *)
Lemma sample_isString (v : JsValue) :
  Sample.isString v = true -> exists s, v = JStr s.
Proof. destruct v; try discriminate. intros _. now eexists. Qed.

Lemma sample_isStringArray (v : JsValue) :
  Sample.isStringArray v = true -> exists authors, v = JArr (map JStr authors).
Proof.
  destruct v as [| | | | | items |]; try discriminate. simpl. intros F.
  enough (exists authors, items = map JStr authors) as [authors ->] by now eexists.
  induction items as [| x items IH]; [now exists [] |].
  simpl in F. apply andb_true_iff in F as [X F].
  destruct (sample_isString x X) as [s ->]. destruct (IH F) as [authors ->].
  now exists (s :: authors).
Qed.

Lemma sample_checkField_passes (props : list (string * JsValue)) (k : string)
    (ok : JsValue -> bool) (expected : string) :
  Sample.checkField props k ok expected = [] ->
  exists v, lookupProp k props = Some v /\ ok v = true.
Proof.
  unfold Sample.checkField. destruct (lookupProp k props) as [v |]; [| discriminate].
  destruct (ok v) eqn:O; [| discriminate]. intros _. now exists v.
Qed.

Lemma sample_schema_shape (table : list (string * Sample.Node)) :
  schemaGuaranteesShape (Sample.host table).
Proof.
  intros v. simpl. unfold Sample.schema.
  destruct v as [| | | | | |props]; try discriminate. simpl.
  destruct (Sample.checkField props "authors" _ _) eqn:A; [| discriminate].
  destruct (Sample.checkField props "sponsor" _ _) eqn:S; [| discriminate].
  destruct (Sample.checkField props "discussion" _ _) eqn:D; [| discriminate].
  intros _.
  apply sample_checkField_passes in A as (a & La & Oa).
  apply sample_checkField_passes in S as (s & Ls & Os).
  apply sample_checkField_passes in D as (d & Ld & Od).
  apply sample_isStringArray in Oa as [authors ->].
  apply sample_isString in Os as [sponsor ->].
  apply sample_isString in Od as [discussion ->].
  exists authors, sponsor, discussion, props. auto.
Qed.

(** C5, as stated, fails: a schema violation is reported over several lines.
    Here the metadata lacks the sponsor; the message is a header, an empty
    line and one line per schema error. *)
Lemma schema_failure_report_is_multi_line :
  New.validateGapDirectory (Sample.host Sample.repository) "/gaps/scripts/../GAP-0005"
  = ([Err ("GAP-0005: metadata.yml validation failed:" ++ newline ++ newline
           ++ "must have required property 'sponsor'")],
     Exited 1)
  /\ hasNewline ("GAP-0005: metadata.yml validation failed:" ++ newline ++ newline
                 ++ "must have required property 'sponsor'") = true.
Proof. split; reflexivity. Qed.

(** Every schema failure is: the description starts with a header line
    followed by an empty line, whatever the validator reports. *)
Lemma schema_failure_always_multi_line (gapName : string) (errs : list ErrorObject) :
  hasNewline (gapName ++ ": " ++ describe (SchemaViolation errs)) = true.
Proof.
  induction gapName as [| c g IH]; [reflexivity |].
  simpl. rewrite orb_true_iff. right. exact IH.
Qed.

Lemma renderSchemaError_layout (errs : list ErrorObject) :
  map renderSchemaError errs
  = map (fun e => if String.eqb (instancePath e) "" then message e
                  else instancePath e ++ ": " ++ message e) errs.
Proof.
  apply map_ext. intros [path msg]. unfold renderSchemaError. simpl.
  destruct path; reflexivity.
Qed.

(** C5, as the code has it.  For an existing directory, every stage at
    which the validation can fail ends the run in the same way: exactly one
    message on stderr, made of the base name of the directory, a colon and
    a space, and the failure description of that stage, then exit status 1,
    with nothing printed before or after.  The stages are, in order: the
    name, README.md, the presence of metadata.yml, reading it, parsing it,
    the type of the parsed value, the schema, the authors, the sponsor and
    the discussion.  The description of a schema failure is not one line:
    it is "metadata.yml validation failed:", two newlines, and the schema
    errors joined by newlines, each rendered as its message, preceded by
    its path, a colon and a space when the path is not empty.  With a
    schema that guarantees the documented shape, these reports and the
    success line are the only outcomes. *)
Theorem failure_report_format (h : Host) (dirPath : string) (st : Stats.t) :
  existsSync h dirPath = true ->
  statSync h dirPath = inl st ->
  Stats.isDirectory st = true ->
  (~ wellNamed (basename h dirPath) ->
   New.validateGapDirectory h dirPath
   = ([Err (basename h dirPath
            ++ ": Invalid directory name format. Expected GAP-NNNN (4 digits, zero-padded)")],
      Exited 1)) /\
  (wellNamed (basename h dirPath) ->
   (existsSync h (join h dirPath "README.md") = false ->
    New.validateGapDirectory h dirPath
    = ([Err (basename h dirPath ++ ": No README.md file found")], Exited 1)) /\
   (existsSync h (join h dirPath "README.md") = true ->
    (existsSync h (join h dirPath "metadata.yml") = false ->
     New.validateGapDirectory h dirPath
     = ([Err (basename h dirPath ++ ": No metadata.yml file found")], Exited 1)) /\
    (existsSync h (join h dirPath "metadata.yml") = true ->
     (forall err,
        readFileSync h (join h dirPath "metadata.yml") = inr err ->
        New.validateGapDirectory h dirPath
        = ([Err (basename h dirPath ++ ": Failed to read metadata.yml: " ++ err)],
           Exited 1)) /\
     (forall content err,
        readFileSync h (join h dirPath "metadata.yml") = inl content ->
        parseYaml h content = inr err ->
        New.validateGapDirectory h dirPath
        = ([Err (basename h dirPath ++ ": Invalid YAML in metadata.yml: " ++ err)],
           Exited 1)) /\
     (forall content v,
        readFileSync h (join h dirPath "metadata.yml") = inl content ->
        parseYaml h content = inl v ->
        (String.eqb (typeof v) "object" = false ->
         New.validateGapDirectory h dirPath
         = ([Err (basename h dirPath ++ ": metadata.yml must contain a valid YAML object")],
            Exited 1)) /\
        (String.eqb (typeof v) "object" = true ->
         valid (validateMetadataSchema h v) = false ->
         New.validateGapDirectory h dirPath
         = ([Err (basename h dirPath ++ ": metadata.yml validation failed:"
                  ++ newline ++ newline
                  ++ joinWith newline
                       (map (fun e =>
                               if String.eqb (instancePath e) "" then message e
                               else instancePath e ++ ": " ++ message e)
                          (errors (validateMetadataSchema h v))))],
            Exited 1)
         /\ hasNewline
              (basename h dirPath ++ ": metadata.yml validation failed:"
               ++ newline ++ newline
               ++ joinWith newline
                    (map (fun e =>
                            if String.eqb (instancePath e) "" then message e
                            else instancePath e ++ ": " ++ message e)
                       (errors (validateMetadataSchema h v))))
            = true) /\
        (forall authors sponsor discussion,
           valid (validateMetadataSchema h v) = true ->
           shaped v authors sponsor discussion ->
           (forall good bad rest,
              authors = (good ++ bad :: rest)%list ->
              (forall a, In a good -> isEmail h a = true) ->
              isEmail h bad = false ->
              New.validateGapDirectory h dirPath
              = ([Err (basename h dirPath ++ ": metadata.yml invalid author "
                       ++ dquote ++ bad ++ dquote ++ " - must be "
                       ++ dquote ++ "Name <email>" ++ dquote ++ " or a valid email")],
                 Exited 1)) /\
           ((forall a, In a authors -> isEmail h a = true) ->
            ~ beginsWith "@" sponsor ->
            New.validateGapDirectory h dirPath
            = ([Err (basename h dirPath
                     ++ ": metadata.yml sponsor must be a GitHub username starting with @ (got "
                     ++ dquote ++ sponsor ++ dquote ++ ")")],
               Exited 1)) /\
           ((forall a, In a authors -> isEmail h a = true) ->
            beginsWith "@" sponsor ->
            isURL h discussion = false ->
            New.validateGapDirectory h dirPath
            = ([Err (basename h dirPath
                     ++ ": metadata.yml discussion must be a valid URL (got "
                     ++ dquote ++ discussion ++ dquote ++ ")")],
               Exited 1))))))) /\
  (schemaGuaranteesShape h ->
   New.validateGapDirectory h dirPath
   = ([Out (successLine (basename h dirPath))], Normal tt) \/
   exists f : Failure,
     New.validateGapDirectory h dirPath
     = ([Err (basename h dirPath ++ ": " ++ describe f)], Exited 1)).
Proof.
  intros E S D. rewrite (validateGapDirectory_checks h dirPath st E S D).
  rewrite validateDirectoryNaming_cases. split; [| split].
  - intros W. destruct (_ || _) eqn:T; [| reflexivity].
    apply wellNamed_test in T. contradiction.
  - intros W. apply wellNamed_test in W. rewrite W, bind_ret_l.
    unfold New.validateReadmeExists. split; intros R; rewrite R; [reflexivity |].
    simpl negb. rewrite when_false, bind_ret_l. split; intros M.
    { now rewrite validateMetadata_missing. }
    split; [| split].
    + intros err F. now rewrite (validateMetadata_unreadable h dirPath _ err M F).
    + intros content err F Y.
      now rewrite (validateMetadata_bad_yaml h dirPath _ content err M F Y).
    + intros content v F Y.
      assert (P : metadataParsesTo h dirPath v) by (split; [exact M | now exists content]).
      split; [| split].
      * intros T. now rewrite (validateMetadata_scalar h dirPath _ v P T).
      * intros T V.
        rewrite (validateMetadata_schema_violation h dirPath _ v P T V).
        rewrite <- renderSchemaError_layout. split; [reflexivity |].
        apply (schema_failure_always_multi_line (basename h dirPath)).
      * intros authors sponsor discussion V Sh.
        rewrite (validateMetadata_shaped h dirPath _ v authors sponsor discussion P V Sh).
        unfold semanticVerdict. split; [| split].
        -- intros good bad rest -> G B.
           rewrite (find_first _ good bad rest); [reflexivity | | now rewrite B].
           intros a Ha. now rewrite (G a Ha).
        -- intros G B. rewrite find_all_good by (intros a Ha; now rewrite (G a Ha)).
           destruct (firstCharIs "@" sponsor) eqn:A; [| reflexivity].
           apply firstCharIs_beginsWith in A. contradiction.
        -- intros G B U. rewrite find_all_good by (intros a Ha; now rewrite (G a Ha)).
           apply firstCharIs_beginsWith in B. rewrite B, U. reflexivity.
  - intros Shape. destruct (_ || _); [| right; now exists BadName].
    rewrite bind_ret_l. unfold New.validateReadmeExists.
    destruct (existsSync h (join h dirPath "README.md")); [| right; now exists NoReadme].
    simpl negb. rewrite when_false, bind_ret_l.
    destruct (validateMetadata_outcome h dirPath (basename h dirPath) Shape) as [-> | [f ->]].
    + left. reflexivity.
    + right. now exists f.
Qed.

Lemma sample_GAP_0005_named : wellNamed "GAP-0005".
Proof. now apply wellNamed_test. Qed.

(** Metadata without a sponsor: the report spans three lines. *)
Lemma failure_report_format_witness :
  New.validateGapDirectory (Sample.host Sample.repository) "/gaps/scripts/../GAP-0005"
  = ([Err ("GAP-0005: metadata.yml validation failed:" ++ newline ++ newline
           ++ joinWith newline ["must have required property 'sponsor'"])],
     Exited 1)
  /\ hasNewline
       ("GAP-0005: metadata.yml validation failed:" ++ newline ++ newline
        ++ joinWith newline ["must have required property 'sponsor'"])
     = true.
Proof.
  pose proof (failure_report_format (Sample.host Sample.repository)
                "/gaps/scripts/../GAP-0005" {| Stats.isDirectory := true |}
                eq_refl eq_refl eq_refl) as (_ & Named & _).
  destruct (Named sample_GAP_0005_named) as [_ Readme].
  destruct (Readme eq_refl) as [_ Present].
  destruct (Present eq_refl) as (_ & _ & Parsed).
  destruct (Parsed Sample.ymlNoSponsor
              (JObj [("authors", JArr [JStr "jane@example.com"]);
                     ("discussion", JStr "https://example.com/discuss/42")])
              eq_refl eq_refl) as (_ & Schema & _).
  exact (Schema eq_refl eq_refl).
Defined.

(** ** The command line *)

(** C8.  With one positional argument that names nothing, or something
    that is not a directory, the only effect is the corresponding message on
    stderr and exit status 1: the naming, README and metadata checks have
    printed nothing and the outcome does not depend on them.  With two or
    more positional arguments the only effect is the usage message and exit
    status 1. *)
Theorem single_target_checked_first (h : Host) :
  (forall dirPath,
     existsSync h dirPath = false ->
     New.main h [dirPath] = ([Err ("Directory does not exist: " ++ dirPath)], Exited 1)) /\
  (forall dirPath st,
     existsSync h dirPath = true ->
     statSync h dirPath = inl st ->
     Stats.isDirectory st = false ->
     New.main h [dirPath] = ([Err ("Not a directory: " ++ dirPath)], Exited 1)) /\
  (forall first second others,
     New.main h (first :: second :: others)
     = ([Err "Usage: ./scripts/validate-structure.js [gap-directory]"], Exited 1)).
Proof.
  split; [| split].
  - intros dirPath E. unfold New.main, New.validateGapDirectory. cbn [length Nat.eqb nth].
    rewrite E. reflexivity.
  - intros dirPath st E S D. unfold New.main, New.validateGapDirectory.
    cbn [length Nat.eqb nth]. rewrite E, S. simpl negb.
    rewrite when_false, bind_ret_l. cbn [uncaught]. rewrite bind_ret_l, D. reflexivity.
  - intros first second others. reflexivity.
Qed.

Lemma single_target_checked_first_witness :
  New.main (Sample.host Sample.repository) ["/gaps/scripts/../GAP-0010"]
  = ([Err "Directory does not exist: /gaps/scripts/../GAP-0010"], Exited 1)
  /\ New.main (Sample.host Sample.repository) ["/gaps/scripts/../GAP-notes.txt"]
     = ([Err "Not a directory: /gaps/scripts/../GAP-notes.txt"], Exited 1).
Proof.
  split.
  - exact (proj1 (single_target_checked_first (Sample.host Sample.repository))
             "/gaps/scripts/../GAP-0010" eq_refl).
  - exact (proj1 (proj2 (single_target_checked_first (Sample.host Sample.repository)))
             "/gaps/scripts/../GAP-notes.txt" {| Stats.isDirectory := false |}
             eq_refl eq_refl eq_refl).
Defined.

(** A well-formed proposal passes: success line, normal completion. *)
Example valid_directory_passes :
  New.main (Sample.host Sample.repository) ["/gaps/scripts/../GAP-0001"]
  = ([Out (successLine "GAP-0001")], Normal tt).
Proof. reflexivity. Qed.

(** ** Discovery *)

Lemma isGapEntry_test (e : Dirent.t) :
  Dirent.isDirectory e && re_GAP_prefix (Dirent.name e) = true <-> isGapEntry e.
Proof.
  unfold isGapEntry, re_GAP_prefix.
  now rewrite andb_true_iff, prefix_beginsWith.
Qed.

Lemma filter_no_gap_entry (entries : list Dirent.t) :
  (forall e, In e entries -> ~ isGapEntry e) ->
  filter (fun e => Dirent.isDirectory e && re_GAP_prefix (Dirent.name e)) entries = [].
Proof.
  intros None. induction entries as [| e entries IH]; [reflexivity |].
  cbn [filter]. destruct (_ && _) eqn:T.
  - apply isGapEntry_test in T. exfalso. apply (None e); [now left | exact T].
  - apply IH. intros e' He'. apply None. now right.
Qed.

Lemma discoverGapDirectories_listing (h : Host) (entries : list Dirent.t) :
  readdirSync h (rootDir h) = inl entries ->
  New.discoverGapDirectories h =
    ret (map (fun e => join h (rootDir h) (Dirent.name e))
           (filter (fun e => Dirent.isDirectory e && re_GAP_prefix (Dirent.name e)) entries)).
Proof.
  intros R. unfold New.discoverGapDirectories. fold (rootDir h). rewrite R.
  cbn [uncaught]. now rewrite bind_ret_l.
Qed.

Lemma main_nothing_discovered (h : Host) :
  New.discoverGapDirectories h = ret [] ->
  New.main h [] = ([Err "No GAP directories found"], Exited 1).
Proof.
  intros D. unfold New.main. cbn [length Nat.eqb]. rewrite D, bind_ret_l. reflexivity.
Qed.

(** C9.  When the root can be listed, discovery returns the paths of
    exactly those entries that are directories and whose name begins with
    "GAP-"; when there is no such entry, the run prints "No GAP directories
    found" and exits with status 1, and that is all it does. *)
Theorem discovery_selects_gap_directories (h : Host) (entries : list Dirent.t) :
  readdirSync h (rootDir h) = inl entries ->
  (exists gapDirs,
     New.discoverGapDirectories h = ret gapDirs /\
     forall p, In p gapDirs <->
       exists e, In e entries /\ isGapEntry e /\ p = join h (rootDir h) (Dirent.name e)) /\
  ((forall e, In e entries -> ~ isGapEntry e) ->
   New.main h [] = ([Err "No GAP directories found"], Exited 1)).
Proof.
  intros R. rewrite (discoverGapDirectories_listing h entries R). split.
  - eexists. split; [reflexivity |]. intros p. rewrite in_map_iff. split.
    + intros (e & <- & He). apply filter_In in He as [He G].
      exists e. now rewrite <- isGapEntry_test.
    + intros (e & He & G & ->). exists e. split; [reflexivity |].
      apply filter_In. now rewrite isGapEntry_test.
  - intros None. apply main_nothing_discovered.
    rewrite (discoverGapDirectories_listing h entries R).
    now rewrite (filter_no_gap_entry entries None).
Qed.

Lemma sample_empty_listing :
  readdirSync (Sample.host Sample.emptyRepository)
    (rootDir (Sample.host Sample.emptyRepository))
  = inl [ {| Dirent.name := "README.md"; Dirent.isDirectory := false |};
          {| Dirent.name := "GAP-notes.txt"; Dirent.isDirectory := false |};
          {| Dirent.name := "scripts"; Dirent.isDirectory := true |} ].
Proof. reflexivity. Qed.

Lemma sample_empty_no_gap_entry (e : Dirent.t) :
  In e [ {| Dirent.name := "README.md"; Dirent.isDirectory := false |};
         {| Dirent.name := "GAP-notes.txt"; Dirent.isDirectory := false |};
         {| Dirent.name := "scripts"; Dirent.isDirectory := true |} ] ->
  ~ isGapEntry e.
Proof.
  intros [<- | [<- | [<- | []]]] [D [rest B]]; discriminate.
Qed.

(** A root with a README, a plain file called GAP-notes.txt and the scripts
    directory: nothing to validate. *)
Lemma discovery_selects_gap_directories_witness :
  New.main (Sample.host Sample.emptyRepository) []
  = ([Err "No GAP directories found"], Exited 1).
Proof.
  exact (proj2 (discovery_selects_gap_directories (Sample.host Sample.emptyRepository)
                  _ sample_empty_listing)
           sample_empty_no_gap_entry).
Defined.

Example sample_discovery_keeps_directories_only :
  New.discoverGapDirectories (Sample.host Sample.repository)
  = ret ["/gaps/scripts/../GAP-0001"; "/gaps/scripts/../GAP-0002";
         "/gaps/scripts/../GAP-0003"].
Proof. reflexivity. Qed.

(** ** Exit status *)

Section ExitCodes.
Variable code : Z.

Lemma exitsOnlyWith_normal {A} (out : list Line) (a : A) :
  exitsOnlyWith code (out, Normal a).
Proof. intros n E. discriminate E. Qed.

Lemma exitsOnlyWith_thrown {A} (out : list Line) (e : string) :
  exitsOnlyWith code (A := A) (out, Thrown e).
Proof. intros n E. discriminate E. Qed.

Lemma exitsOnlyWith_exit {A} : exitsOnlyWith code (A := A) (process_exit code).
Proof. intros n [= <-]. reflexivity. Qed.

Lemma exitsOnlyWith_bind {A B} (m : Proc A) (f : A -> Proc B) :
  exitsOnlyWith code m ->
  (forall a, exitsOnlyWith code (f a)) ->
  exitsOnlyWith code (bind m f).
Proof.
  intros Hm Hf n. destruct m as [out [a | k | e]]; simpl.
  - specialize (Hf a n). destruct (f a) as [out' c]. exact Hf.
  - intros [= <-]. now apply (Hm k).
  - discriminate.
Qed.

Lemma exitsOnlyWith_when (c : bool) (body : Proc unit) :
  exitsOnlyWith code body -> exitsOnlyWith code (when_ c body).
Proof. destruct c; [auto | intros _; apply exitsOnlyWith_normal]. Qed.

Lemma exitsOnlyWith_forOf {A} (xs : list A) (body : A -> Proc unit) :
  (forall x, exitsOnlyWith code (body x)) -> exitsOnlyWith code (forOf xs body).
Proof.
  intros Hb. induction xs as [| x xs IH]; cbn [forOf].
  - apply exitsOnlyWith_normal.
  - apply exitsOnlyWith_bind; auto.
Qed.

End ExitCodes.

Ltac exit_codes :=
  repeat first
    [ apply exitsOnlyWith_normal
    | apply exitsOnlyWith_thrown
    | apply exitsOnlyWith_exit
    | apply exitsOnlyWith_when
    | apply exitsOnlyWith_forOf; intros ?
    | apply exitsOnlyWith_bind; [| intros ?]
    | match goal with
      | |- exitsOnlyWith _ (match ?x with _ => _ end) => destruct x
      end ].

Lemma validateGapDirectory_exits_with_1 (h : Host) (dirPath : string) :
  exitsOnlyWith 1 (New.validateGapDirectory h dirPath).
Proof.
  unfold New.validateGapDirectory, New.validateMetadata, New.validateReadmeExists,
    New.validateDirectoryNaming, New.error, uncaught, getProp, iterate, assertString,
    callStartsWith, console_error, console_log, ret, throw.
  exit_codes.
Qed.

(** ** Discovery mode stops at the first failure *)

Lemma forOf_all_pass {A} (xs : list A) (body : A -> Proc unit) :
  (forall x, In x xs -> completion (body x) = Normal tt) ->
  forOf xs body = (flat_map (fun x => printed (body x)) xs, Normal tt).
Proof.
  intros Hb. induction xs as [| x xs IH]; cbn [forOf flat_map]; [reflexivity |].
  rewrite IH by (intros y Hy; apply Hb; now right).
  specialize (Hb x (or_introl eq_refl)).
  destruct (body x) as [out c]. simpl in Hb. subst c. reflexivity.
Qed.

Lemma bind_stops (m : Proc unit) (k : unit -> Proc unit) :
  completion m <> Normal tt -> bind m k = m.
Proof.
  destruct m as [out [[] | n | e]]; simpl; [contradiction | reflexivity | reflexivity].
Qed.

Lemma forOf_stops {A} (pre : list A) (d : A) (post : list A) (body : A -> Proc unit) :
  (forall x, In x pre -> completion (body x) = Normal tt) ->
  completion (body d) <> Normal tt ->
  forOf (pre ++ d :: post) body =
    ((flat_map (fun x => printed (body x)) pre ++ printed (body d))%list,
     completion (body d)).
Proof.
  intros Hpre Hd. rewrite forOf_app, (forOf_all_pass pre body Hpre). cbn [forOf].
  rewrite (bind_stops (body d) _ Hd). destruct (body d) as [out c]. reflexivity.
Qed.

(** C1.  In discovery mode, let the discovered directories be [pre], then
    [d], then [post], where every directory of [pre] passes and [d] does
    not.  Then the run consists of the count line, what the directories of
    [pre] printed and what [d] printed, and it ends the way [d] ended, with
    exit status 1: no directory of [post] contributes anything, whatever it
    contains. *)
Theorem discovery_stops_at_first_failure (h : Host)
    (pre : list string) (d : string) (post : list string) :
  New.discoverGapDirectories h = ret (pre ++ d :: post)%list ->
  (forall p, In p pre -> completion (New.validateGapDirectory h p) = Normal tt) ->
  completion (New.validateGapDirectory h d) <> Normal tt ->
  New.main h [] =
    ((Out (foundLine (length (pre ++ d :: post)))
        :: flat_map (fun p => printed (New.validateGapDirectory h p)) pre
        ++ printed (New.validateGapDirectory h d))%list,
     completion (New.validateGapDirectory h d))
  /\ exitStatus (completion (New.main h [])) = 1%Z.
Proof.
  intros D Hpre Hd.
  assert (M : New.main h [] =
    ((Out (foundLine (length (pre ++ d :: post)))
        :: flat_map (fun p => printed (New.validateGapDirectory h p)) pre
        ++ printed (New.validateGapDirectory h d))%list,
     completion (New.validateGapDirectory h d))).
  { unfold New.main. cbn [length Nat.eqb]. rewrite D, bind_ret_l.
    replace (length (pre ++ d :: post) =? 0)%nat with false
      by (rewrite length_app; cbn [length]; symmetry; apply Nat.eqb_neq; lia).
    rewrite when_false, bind_ret_l.
    rewrite (forOf_stops pre d post _ Hpre Hd). reflexivity. }
  split; [exact M |]. rewrite M. unfold completion at 1. cbn [snd].
  pose proof (validateGapDirectory_exits_with_1 h d) as X.
  destruct (completion (New.validateGapDirectory h d)) as [[] | n | e] eqn:C.
  - contradiction.
  - simpl. now apply X.
  - reflexivity.
Qed.

(** One proposal that passes, one with a bad sponsor, one that would pass:
    the third is never looked at. *)
Lemma discovery_stops_at_first_failure_witness :
  New.main (Sample.host Sample.repository) [] =
    ([Out "Found 3 GAP directories";
      Out (successLine "GAP-0001");
      Err ("GAP-0002: metadata.yml sponsor must be a GitHub username starting with @ (got "
           ++ dquote ++ "alice" ++ dquote ++ ")")],
     Exited 1)
  /\ exitStatus (completion (New.main (Sample.host Sample.repository) [])) = 1%Z.
Proof.
  refine (discovery_stops_at_first_failure (Sample.host Sample.repository)
            ["/gaps/scripts/../GAP-0001"] "/gaps/scripts/../GAP-0002"
            ["/gaps/scripts/../GAP-0003"] eq_refl _ _).
  - intros p [<- | []]. reflexivity.
  - discriminate.
Defined.

(** ** The two versions of the script *)

Lemma naming_returns_basename (h : Host) (dirPath : string) (k k' : string -> Proc unit) :
  k (basename h dirPath) = k' (basename h dirPath) ->
  bind (New.validateDirectoryNaming h dirPath) k
  = bind (New.validateDirectoryNaming h dirPath) k'.
Proof.
  intros E. rewrite validateDirectoryNaming_cases.
  destruct (_ || _); [| reflexivity]. now rewrite !bind_ret_l.
Qed.

(** C10.  The naming check, the README check and the metadata validation
    of the earlier script are the same functions as those of the current
    one: for every host, that is for every state of the directory, they
    print the same lines and complete the same way.  On one positional
    argument the current script is the earlier one followed, when it
    returns normally, by the success line; only the entry points differ. *)
Theorem versions_agree_per_directory (h : Host) :
  (forall dirPath,
     Old.validateDirectoryNaming h dirPath = New.validateDirectoryNaming h dirPath) /\
  (forall dirPath gapName,
     Old.validateReadmeExists h dirPath gapName = New.validateReadmeExists h dirPath gapName) /\
  (forall dirPath gapName,
     Old.validateMetadata h dirPath gapName = New.validateMetadata h dirPath gapName) /\
  (forall dirPath,
     New.main h [dirPath]
     = (Old.main h [dirPath] ;; console_log (successLine (basename h dirPath)))) /\
  Old.main h [] = ([Err "Usage: ./scripts/validate-structure.js <gap-directory>"], Exited 1).
Proof.
  split; [reflexivity |]. split; [reflexivity |]. split; [reflexivity |].
  split; [| reflexivity].
  intros dirPath. unfold New.main, Old.main, New.validateGapDirectory.
  cbn [length Nat.eqb nth negb]. rewrite when_false, bind_ret_l.
  change (Old.validateDirectoryNaming h) with (New.validateDirectoryNaming h).
  change (Old.validateReadmeExists h) with (New.validateReadmeExists h).
  change (Old.validateMetadata h) with (New.validateMetadata h).
  destruct (existsSync h dirPath); [| reflexivity].
  cbn [negb]. rewrite !when_false, !bind_ret_l.
  destruct (statSync h dirPath) as [st | e]; [| reflexivity].
  cbn [uncaught]. rewrite !bind_ret_l.
  destruct (Stats.isDirectory st); [| reflexivity].
  cbn [negb]. rewrite !when_false, !bind_ret_l.
  rewrite bind_assoc. apply naming_returns_basename.
  rewrite bind_assoc. reflexivity.
Qed.

(** * Further properties of the script *)

(** ** The structural checks, in order *)

(** X1.  For an existing directory the checks are made in the order
    naming, README, presence of metadata.yml, reading it, parsing it, type
    of the parsed value, and the first one that fails decides the outcome
    alone: a bad name is reported whatever the directory contains, a
    missing README whatever the metadata file holds, and so on down to a
    scalar at the top level of the metadata. *)
Theorem structural_checks_in_order (h : Host) (dirPath : string) (st : Stats.t) :
  existsSync h dirPath = true ->
  statSync h dirPath = inl st ->
  Stats.isDirectory st = true ->
  (~ wellNamed (basename h dirPath) ->
   New.validateGapDirectory h dirPath = fails (basename h dirPath) BadName) /\
  (wellNamed (basename h dirPath) ->
   (existsSync h (join h dirPath "README.md") = false ->
    New.validateGapDirectory h dirPath = fails (basename h dirPath) NoReadme) /\
   (existsSync h (join h dirPath "README.md") = true ->
    (existsSync h (join h dirPath "metadata.yml") = false ->
     New.validateGapDirectory h dirPath = fails (basename h dirPath) NoMetadata) /\
    (existsSync h (join h dirPath "metadata.yml") = true ->
     (forall err,
        readFileSync h (join h dirPath "metadata.yml") = inr err ->
        New.validateGapDirectory h dirPath = fails (basename h dirPath) (Unreadable err)) /\
     (forall content err,
        readFileSync h (join h dirPath "metadata.yml") = inl content ->
        parseYaml h content = inr err ->
        New.validateGapDirectory h dirPath = fails (basename h dirPath) (BadYaml err)) /\
     (forall content v,
        readFileSync h (join h dirPath "metadata.yml") = inl content ->
        parseYaml h content = inl v ->
        (exists b, v = JBool b) \/ (exists n, v = JNum n) \/ (exists s, v = JStr s) ->
        New.validateGapDirectory h dirPath = fails (basename h dirPath) NotAnObject)))).
Proof.
  intros E S D. rewrite (validateGapDirectory_checks h dirPath st E S D).
  rewrite validateDirectoryNaming_cases. split.
  - intros W. destruct (_ || _) eqn:T; [| reflexivity].
    apply wellNamed_test in T. contradiction.
  - intros W. apply wellNamed_test in W. rewrite W, bind_ret_l.
    unfold New.validateReadmeExists. split; intros R; rewrite R; [reflexivity |].
    simpl negb. rewrite when_false, bind_ret_l. split; intros M.
    + now rewrite validateMetadata_missing.
    + split; [| split].
      * intros err F. now rewrite (validateMetadata_unreadable h dirPath _ err M F).
      * intros content err F Y.
        now rewrite (validateMetadata_bad_yaml h dirPath _ content err M F Y).
      * intros content v F Y V.
        rewrite (scalar_fails_type_test h dirPath _ v); [reflexivity | | exact V].
        split; [exact M | now exists content].
Qed.

(** A directory whose metadata file is cut short: the parser's message is
    what gets reported. *)
Lemma structural_checks_in_order_witness :
  New.validateGapDirectory (Sample.host Sample.repository) "/gaps/scripts/../GAP-0008"
  = ([Err "GAP-0008: Invalid YAML in metadata.yml: Flow sequence in block collection must be sufficiently indented and end with a ]"],
     Exited 1).
Proof.
  pose proof (structural_checks_in_order (Sample.host Sample.repository)
                "/gaps/scripts/../GAP-0008" {| Stats.isDirectory := true |}
                eq_refl eq_refl eq_refl) as [_ Named].
  destruct (Named (proj1 (wellNamed_test "GAP-0008") eq_refl)) as [_ Readme].
  destruct (Readme eq_refl) as [_ Present].
  destruct (Present eq_refl) as (_ & Broken & _).
  exact (Broken Sample.ymlBroken _ eq_refl eq_refl).
Defined.

(** ** When a directory passes *)

Lemma semanticVerdict_passes_iff (h : Host) (gapName : string)
    (authors : list string) (sponsor discussion : string) :
  semanticVerdict h gapName authors sponsor discussion = ret tt <->
  (forall a, In a authors -> isEmail h a = true) /\
  beginsWith "@" sponsor /\ isURL h discussion = true.
Proof.
  unfold semanticVerdict. rewrite <- firstCharIs_beginsWith. split.
  - destruct (find _ authors) as [a |] eqn:F; [discriminate |].
    destruct (firstCharIs "@" sponsor); [| discriminate].
    destruct (isURL h discussion); [| discriminate].
    intros _. repeat split. intros a Ha.
    apply (find_none _ _ F) in Ha. now destruct (isEmail h a).
  - intros (G & A & U). rewrite find_all_good, A, U; [reflexivity |].
    intros a Ha. now rewrite (G a Ha).
Qed.

(** X2.  With a schema that accepts only metadata of the documented shape,
    a run on one existing directory prints the success line and returns
    normally if and only if every requirement is met: the name is
    well-formed, README.md exists, metadata.yml exists, can be read, parses,
    is accepted by the schema, every author is accepted by the e-mail
    check, the sponsor begins with "@" and the discussion is accepted by
    the URL check. *)
Theorem directory_passes_iff (h : Host) (dirPath : string) (st : Stats.t) :
  schemaGuaranteesShape h ->
  existsSync h dirPath = true ->
  statSync h dirPath = inl st ->
  Stats.isDirectory st = true ->
  (New.main h [dirPath] = ([Out (successLine (basename h dirPath))], Normal tt)
   <->
   wellNamed (basename h dirPath) /\
   existsSync h (join h dirPath "README.md") = true /\
   exists v authors sponsor discussion,
     metadataParsesTo h dirPath v /\
     valid (validateMetadataSchema h v) = true /\
     shaped v authors sponsor discussion /\
     (forall a, In a authors -> isEmail h a = true) /\
     beginsWith "@" sponsor /\
     isURL h discussion = true).
Proof.
  intros Shape E S D.
  change (New.main h [dirPath]) with (New.validateGapDirectory h dirPath).
  rewrite (validateGapDirectory_checks h dirPath st E S D).
  rewrite validateDirectoryNaming_cases, <- wellNamed_test.
  destruct (_ || _).
  2:{ split; [discriminate | intros [W _]; discriminate W]. }
  rewrite bind_ret_l. unfold New.validateReadmeExists.
  destruct (existsSync h (join h dirPath "README.md")).
  2:{ split; [discriminate | intros (_ & R & _); discriminate R]. }
  simpl negb. rewrite when_false, bind_ret_l. split.
  - intros Pass. split; [reflexivity | split; [reflexivity |]].
    destruct (existsSync h (join h dirPath "metadata.yml")) eqn:M.
    2:{ rewrite validateMetadata_missing in Pass by exact M. discriminate Pass. }
    destruct (readFileSync h (join h dirPath "metadata.yml")) as [content | err] eqn:F.
    2:{ rewrite (validateMetadata_unreadable h dirPath _ err M F) in Pass.
        discriminate Pass. }
    destruct (parseYaml h content) as [v | err] eqn:Y.
    2:{ rewrite (validateMetadata_bad_yaml h dirPath _ content err M F Y) in Pass.
        discriminate Pass. }
    assert (P : metadataParsesTo h dirPath v) by (split; [exact M | now exists content]).
    destruct (String.eqb (typeof v) "object") eqn:T.
    2:{ rewrite (validateMetadata_scalar h dirPath _ v P T) in Pass. discriminate Pass. }
    destruct (valid (validateMetadataSchema h v)) eqn:V.
    2:{ rewrite (validateMetadata_schema_violation h dirPath _ v P T V) in Pass.
        discriminate Pass. }
    destruct (Shape v V) as (authors & sponsor & discussion & Sh).
    rewrite (validateMetadata_shaped h dirPath _ v authors sponsor discussion P V Sh) in Pass.
    destruct (semanticVerdict_outcome h (basename h dirPath) authors sponsor discussion)
      as [R | [f R]]; rewrite R in Pass; [| discriminate Pass].
    apply semanticVerdict_passes_iff in R. destruct R as (G & A & U).
    exists v, authors, sponsor, discussion. auto 10.
  - intros (_ & _ & v & authors & sponsor & discussion & P & V & Sh & G & A & U).
    rewrite (validateMetadata_shaped h dirPath _ v authors sponsor discussion P V Sh).
    replace (semanticVerdict h (basename h dirPath) authors sponsor discussion)
      with (@ret unit tt) by (symmetry; now apply semanticVerdict_passes_iff).
    reflexivity.
Qed.

Lemma sample_GAP_0001_parses :
  metadataParsesTo (Sample.host Sample.repository) "/gaps/scripts/../GAP-0001"
    (Sample.record ["Jane Doe <jane@example.com>"; "jane@example.com"] "@alice"
       "https://example.com/discuss/42").
Proof.
  split; [reflexivity |]. exists Sample.ymlValid. split; reflexivity.
Qed.

Lemma sample_GAP_0001_requirements :
  wellNamed "GAP-0001" /\
  Sample.exists_ Sample.repository "/gaps/scripts/../GAP-0001/README.md" = true /\
  exists v authors sponsor discussion,
    metadataParsesTo (Sample.host Sample.repository) "/gaps/scripts/../GAP-0001" v /\
    valid (Sample.schema v) = true /\
    shaped v authors sponsor discussion /\
    (forall a, In a authors -> Sample.looksLikeEmail a = true) /\
    beginsWith "@" sponsor /\
    Sample.looksLikeURL discussion = true.
Proof.
  split; [| split; [reflexivity |]].
  - now apply wellNamed_test.
  - exists (Sample.record ["Jane Doe <jane@example.com>"; "jane@example.com"] "@alice"
              "https://example.com/discuss/42"),
      ["Jane Doe <jane@example.com>"; "jane@example.com"], "@alice",
      "https://example.com/discuss/42".
    split; [exact sample_GAP_0001_parses |].
    split; [reflexivity |]. split; [apply sample_record_shaped |].
    split; [| split; [now exists "alice" | reflexivity]].
    intros a [<- | [<- | []]]; reflexivity.
Qed.

Lemma directory_passes_iff_witness :
  New.main (Sample.host Sample.repository) ["/gaps/scripts/../GAP-0001"]
  = ([Out (successLine "GAP-0001")], Normal tt).
Proof.
  apply (directory_passes_iff (Sample.host Sample.repository)
           "/gaps/scripts/../GAP-0001" {| Stats.isDirectory := true |}
           (sample_schema_shape Sample.repository) eq_refl eq_refl eq_refl).
  destruct sample_GAP_0001_requirements
    as (W & R & v & authors & sponsor & discussion & P & V & Sh & G & A & U).
  split; [exact W | split; [exact R |]].
  exists v, authors, sponsor, discussion.
  split; [exact P |]. split; [exact V |]. auto.
Defined.

(** ** The shape of a whole run *)

Lemma validateGapDirectory_outcomes (h : Host) (dirPath : string) :
  New.validateGapDirectory h dirPath
  = ([Out (successLine (basename h dirPath))], Normal tt) \/
  (exists m, New.validateGapDirectory h dirPath = ([Err m], Exited 1)) \/
  (exists e, New.validateGapDirectory h dirPath = ([], Thrown e)).
Proof.
  destruct (existsSync h dirPath) eqn:E.
  2:{ right; left. unfold New.validateGapDirectory. rewrite E. now eexists. }
  destruct (statSync h dirPath) as [st | e] eqn:S.
  2:{ right; right. unfold New.validateGapDirectory. rewrite E, S. now eexists. }
  destruct (Stats.isDirectory st) eqn:D.
  2:{ right; left. unfold New.validateGapDirectory. rewrite E, S. simpl negb.
      rewrite when_false, bind_ret_l. cbn [uncaught]. rewrite bind_ret_l, D.
      now eexists. }
  rewrite (validateGapDirectory_checks h dirPath st E S D).
  rewrite validateDirectoryNaming_cases.
  destruct (_ || _); [| right; left; now eexists].
  rewrite bind_ret_l. unfold New.validateReadmeExists.
  destruct (existsSync h (join h dirPath "README.md")); [| right; left; now eexists].
  simpl negb. rewrite when_false, bind_ret_l.
  destruct (validateMetadata_reports h dirPath (basename h dirPath))
    as [[[] ->] | [[f ->] | [e ->]]].
  - left. reflexivity.
  - right; left. now eexists.
  - right; right. now eexists.
Qed.

Lemma passing_directory_output (h : Host) (dirPath : string) :
  completion (New.validateGapDirectory h dirPath) = Normal tt ->
  printed (New.validateGapDirectory h dirPath) = [Out (successLine (basename h dirPath))].
Proof.
  destruct (validateGapDirectory_outcomes h dirPath) as [-> | [[m ->] | [e ->]]];
    [reflexivity | discriminate | discriminate].
Qed.

Lemma flat_map_singletons {A B} (f : A -> list B) (g : A -> B) (xs : list A) :
  (forall x, In x xs -> f x = [g x]) -> flat_map f xs = map g xs.
Proof.
  intros H. induction xs as [| x xs IH]; cbn [flat_map map]; [reflexivity |].
  rewrite (H x) by now left. rewrite IH by (intros y Hy; apply H; now right).
  reflexivity.
Qed.

(** X3.  In discovery mode, when at least one directory is discovered and
    every discovered directory passes, the run prints the count line and
    then one success line per directory, in the order of discovery, all on
    stdout, and returns normally. *)
Theorem discovery_all_pass (h : Host) (gapDirs : list string) :
  New.discoverGapDirectories h = ret gapDirs ->
  gapDirs <> [] ->
  (forall p, In p gapDirs -> completion (New.validateGapDirectory h p) = Normal tt) ->
  New.main h [] =
    (Out (foundLine (length gapDirs))
       :: map (fun p => Out (successLine (basename h p))) gapDirs,
     Normal tt).
Proof.
  intros D N Pass. unfold New.main. cbn [length Nat.eqb]. rewrite D, bind_ret_l.
  replace (length gapDirs =? 0)%nat with false
    by (destruct gapDirs; [contradiction | reflexivity]).
  rewrite when_false, bind_ret_l, (forOf_all_pass gapDirs _ Pass).
  rewrite (flat_map_singletons _ (fun p => Out (successLine (basename h p)))).
  - reflexivity.
  - intros p Hp. apply (passing_directory_output h p (Pass p Hp)).
Qed.

Lemma healthy_directories_pass (p : string) :
  In p ["/gaps/scripts/../GAP-0001"; "/gaps/scripts/../GAP-0002"] ->
  completion (New.validateGapDirectory (Sample.host healthyRepository) p) = Normal tt.
Proof. intros [<- | [<- | []]]; reflexivity. Qed.

Lemma two_directories_discovered :
  ["/gaps/scripts/../GAP-0001"; "/gaps/scripts/../GAP-0002"] <> @nil string.
Proof. discriminate. Qed.

Lemma discovery_all_pass_witness :
  New.main (Sample.host healthyRepository) [] =
    ([Out "Found 2 GAP directories";
      Out (successLine "GAP-0001");
      Out (successLine "GAP-0002")],
     Normal tt).
Proof.
  exact (discovery_all_pass (Sample.host healthyRepository)
           ["/gaps/scripts/../GAP-0001"; "/gaps/scripts/../GAP-0002"]
           eq_refl two_directories_discovered healthy_directories_pass).
Defined.

Section Orderly.

Lemma orderly_normal {A} (outs : list string) (a : A) : orderlyOutput (map Out outs, Normal a).
Proof. exists outs. left. now exists a. Qed.

Lemma orderly_ret {A} (a : A) : orderlyOutput (ret a).
Proof. apply (orderly_normal [] a). Qed.

Lemma orderly_log (s : string) : orderlyOutput (console_log s).
Proof. apply (orderly_normal [s] tt). Qed.

Lemma orderly_throw {A} (e : string) : orderlyOutput (A := A) (throw e).
Proof. exists []. right; right. now exists e. Qed.

Lemma orderly_error_exit {A} (m : string) :
  orderlyOutput (A := A) (console_error m ;; process_exit 1).
Proof. exists []. right; left. now exists m. Qed.

Lemma orderly_bind {A B} (m : Proc A) (k : A -> Proc B) :
  orderlyOutput m -> (forall a, orderlyOutput (k a)) -> orderlyOutput (bind m k).
Proof.
  intros (outs & [[a ->] | [[msg ->] | [e ->]]]) Hk.
  - destruct (Hk a) as (outs' & [[b E] | [[msg E] | [e E]]]);
      exists (outs ++ outs')%list; unfold bind; rewrite E, map_app.
    + left. now exists b.
    + right; left. exists msg. now rewrite app_assoc.
    + right; right. now exists e.
  - exists outs. right; left. now exists msg.
  - exists outs. right; right. now exists e.
Qed.

Lemma orderly_when (c : bool) (body : Proc unit) :
  orderlyOutput body -> orderlyOutput (when_ c body).
Proof. destruct c; [auto | intros _; apply orderly_ret]. Qed.

Lemma orderly_forOf {A} (xs : list A) (body : A -> Proc unit) :
  (forall x, orderlyOutput (body x)) -> orderlyOutput (forOf xs body).
Proof.
  intros Hb. induction xs as [| x xs IH]; cbn [forOf].
  - apply orderly_ret.
  - apply orderly_bind; auto.
Qed.

Lemma orderly_validateGapDirectory (h : Host) (dirPath : string) :
  orderlyOutput (New.validateGapDirectory h dirPath).
Proof.
  destruct (validateGapDirectory_outcomes h dirPath) as [-> | [[m ->] | [e ->]]].
  - apply (orderly_normal [_] tt).
  - exists []. right; left. now exists m.
  - exists []. right; right. now exists e.
Qed.

End Orderly.

(** X4.  Whatever the arguments and the state of the file system, the
    script keeps its own output in order: it calls [console.error] at most
    once, that message is the last line the script prints and is followed
    by [process.exit(1)], and every other line goes through [console.log].
    [process.exit] is never reached in any other way, so a run ends
    normally, with status 1 after one error message of the script, or by
    an uncaught exception. *)
Theorem main_output_orderly (h : Host) (positionals : list string) :
  orderlyOutput (New.main h positionals).
Proof.
  unfold New.main.
  destruct (length positionals =? 0)%nat.
  - apply orderly_bind.
    + unfold New.discoverGapDirectories. apply orderly_bind.
      * destruct (readdirSync h _); [apply orderly_ret | apply orderly_throw].
      * intros entries. apply orderly_ret.
    + intros gapDirs. apply orderly_bind.
      * apply orderly_when, orderly_error_exit.
      * intros _. apply orderly_bind; [apply orderly_log |].
        intros _. apply orderly_forOf, orderly_validateGapDirectory.
  - destruct (length positionals =? 1)%nat.
    + apply orderly_validateGapDirectory.
    + apply orderly_error_exit.
Qed.

(** ** The earlier script *)

(** X7.  The earlier script has no [console.log] on any path and calls
    [console.error] at most once: the script itself prints nothing when
    the directory passes, and otherwise either prints one message through
    [console.error] and exits with status 1 or dies of an uncaught
    exception without having printed; with no positional argument, or with
    more than one, the message is the usage line. *)
Theorem old_main_outcomes (h : Host) (positionals : list string) :
  (Old.main h positionals = ([], Normal tt) \/
   (exists m, Old.main h positionals = ([Err m], Exited 1)) \/
   (exists e, Old.main h positionals = ([], Thrown e))) /\
  (length positionals <> 1 ->
   Old.main h positionals
   = ([Err "Usage: ./scripts/validate-structure.js <gap-directory>"], Exited 1)).
Proof.
  unfold Old.main.
  change (Old.validateDirectoryNaming h) with (New.validateDirectoryNaming h).
  change (Old.validateReadmeExists h) with (New.validateReadmeExists h).
  change (Old.validateMetadata h) with (New.validateMetadata h).
  destruct (length positionals =? 1)%nat eqn:L.
  2:{ split; [right; left; now eexists | reflexivity]. }
  apply Nat.eqb_eq in L. split; [| intros N; contradiction].
  cbn [negb]. rewrite when_false, bind_ret_l.
  set (dirPath := nth 0 positionals "").
  destruct (existsSync h dirPath); [| right; left; now eexists].
  cbn [negb]. rewrite when_false, bind_ret_l.
  destruct (statSync h dirPath) as [st | e]; [| right; right; now eexists].
  cbn [uncaught]. rewrite bind_ret_l.
  destruct (Stats.isDirectory st); [| right; left; now eexists].
  cbn [negb]. rewrite when_false, bind_ret_l.
  rewrite validateDirectoryNaming_cases.
  destruct (_ || _); [| right; left; now eexists].
  rewrite bind_ret_l. unfold New.validateReadmeExists.
  destruct (existsSync h (join h dirPath "README.md")); [| right; left; now eexists].
  cbn [negb]. rewrite when_false, bind_ret_l.
  destruct (validateMetadata_reports h dirPath (basename h dirPath))
    as [[[] ->] | [[f ->] | [e ->]]].
  - left. reflexivity.
  - right; left. now eexists.
  - right; right. now eexists.
Qed.

Lemma no_argument_is_not_one : @length string [] <> 1.
Proof. discriminate. Qed.

Lemma old_main_outcomes_witness :
  Old.main (Sample.host Sample.repository) []
  = ([Err "Usage: ./scripts/validate-structure.js <gap-directory>"], Exited 1).
Proof.
  exact (proj2 (old_main_outcomes (Sample.host Sample.repository) [])
           no_argument_is_not_one).
Defined.

Example old_script_prints_nothing_on_success :
  Old.main (Sample.host Sample.repository) ["/gaps/scripts/../GAP-0001"] = ([], Normal tt).
Proof. reflexivity. Qed.

(** ** The layout of a schema report *)

Lemma hasNewline_app (a b : string) :
  hasNewline (a ++ b) = hasNewline a || hasNewline b.
Proof.
  induction a as [| c a IH]; simpl; [reflexivity |].
  now rewrite IH, orb_assoc.
Qed.

Lemma splitLines_one_line (x : string) :
  hasNewline x = false -> splitLines x = [x].
Proof.
  induction x as [| c x IH]; simpl; [reflexivity |].
  intros H. apply orb_false_iff in H as [C H]. rewrite C, (IH H). reflexivity.
Qed.

Lemma splitLines_first_line (x rest : string) :
  hasNewline x = false ->
  splitLines (x ++ newline ++ rest) = x :: splitLines rest.
Proof.
  induction x as [| c x IH]; intros H; [reflexivity |].
  cbn [hasNewline] in H. apply orb_false_iff in H as [C H].
  change (String c x ++ newline ++ rest) with (String c (x ++ newline ++ rest)).
  cbn [splitLines]. rewrite C, (IH H). reflexivity.
Qed.

Lemma splitLines_joinWith (x : string) (xs : list string) :
  (forall y, In y (x :: xs) -> hasNewline y = false) ->
  splitLines (joinWith newline (x :: xs)) = x :: xs.
Proof.
  revert x. induction xs as [| y ys IH]; intros x H.
  - apply splitLines_one_line, H. now left.
  - change (joinWith newline (x :: y :: ys))
      with (x ++ newline ++ joinWith newline (y :: ys)).
    rewrite splitLines_first_line by (apply H; now left).
    rewrite IH by (intros z Hz; apply H; now right). reflexivity.
Qed.

Lemma renderSchemaError_one_line (e : ErrorObject) :
  hasNewline (instancePath e) = false ->
  hasNewline (message e) = false ->
  hasNewline (renderSchemaError e) = false.
Proof.
  intros P M. unfold renderSchemaError.
  destruct (instancePath e) as [| c path] eqn:E; [exact M |].
  now rewrite !hasNewline_app, P, M.
Qed.

(** X5.  When the schema rejects the metadata with at least one error, and
    neither the directory name nor the validator's paths and messages
    contain a newline, the message printed on stderr has this layout: the
    line "<gap-name>: metadata.yml validation failed:", an empty line, and
    then one line per schema error, in the validator's order, each made of
    the error's path, a colon and a space when the path is not empty, and
    the error's message. *)
Theorem schema_report_one_line_per_error (h : Host) (dirPath gapName : string)
    (v : JsValue) (e : ErrorObject) (es : list ErrorObject) :
  metadataParsesTo h dirPath v ->
  String.eqb (typeof v) "object" = true ->
  valid (validateMetadataSchema h v) = false ->
  errors (validateMetadataSchema h v) = e :: es ->
  hasNewline gapName = false ->
  (forall x, In x (e :: es) ->
     hasNewline (instancePath x) = false /\ hasNewline (message x) = false) ->
  exists report,
    New.validateMetadata h dirPath gapName = ([Err report], Exited 1) /\
    splitLines report
    = (gapName ++ ": metadata.yml validation failed:") :: ""
      :: map renderSchemaError (e :: es).
Proof.
  intros P T V Es G Clean.
  rewrite (validateMetadata_schema_violation h dirPath gapName v P T V), Es.
  eexists. split; [reflexivity |].
  cbn [describe].
  replace (gapName ++ ": " ++ "metadata.yml validation failed:" ++ newline ++ newline
           ++ joinWith newline (map renderSchemaError (e :: es)))
    with ((gapName ++ ": metadata.yml validation failed:") ++ newline
          ++ ("" ++ newline ++ joinWith newline (map renderSchemaError (e :: es)))).
  2:{ rewrite append_assoc. reflexivity. }
  rewrite splitLines_first_line by (rewrite hasNewline_app, G; reflexivity).
  rewrite splitLines_first_line by reflexivity.
  cbn [map]. rewrite splitLines_joinWith; [reflexivity |].
  intros y Hy. change (In y (map renderSchemaError (e :: es))) in Hy.
  apply in_map_iff in Hy as (x & <- & Hx).
  destruct (Clean x Hx) as [Px Mx]. now apply renderSchemaError_one_line.
Qed.

Lemma sparse_record_parses :
  metadataParsesTo (hostParsing sparseRecord) "/gaps/scripts/../GAP-0001" sparseRecord.
Proof.
  split; [reflexivity |]. exists Sample.ymlValid. split; reflexivity.
Qed.

Lemma sparse_record_errors_one_line (x : ErrorObject) :
  In x [ {| instancePath := "/sponsor"; message := "must be string" |};
         {| instancePath := ""; message := "must have required property 'discussion'" |} ] ->
  hasNewline (instancePath x) = false /\ hasNewline (message x) = false.
Proof. intros [<- | [<- | []]]; split; reflexivity. Qed.

(** Two schema errors, one with a path and one without. *)
Lemma schema_report_one_line_per_error_witness :
  exists report,
    New.validateMetadata (hostParsing sparseRecord) "/gaps/scripts/../GAP-0001" "GAP-0001"
    = ([Err report], Exited 1) /\
    splitLines report
    = ["GAP-0001: metadata.yml validation failed:";
       "";
       "/sponsor: must be string";
       "must have required property 'discussion'"].
Proof.
  exact (schema_report_one_line_per_error (hostParsing sparseRecord)
           "/gaps/scripts/../GAP-0001" "GAP-0001" sparseRecord _ _
           sparse_record_parses eq_refl eq_refl eq_refl eq_refl
           sparse_record_errors_one_line).
Defined.

(** ** The order of discovery *)

Lemma KeptInOrder_unique {A} (P : A -> Prop) (all kept kept' : list A) :
  KeptInOrder P all kept -> KeptInOrder P all kept' -> kept = kept'.
Proof.
  intros K. revert kept'.
  induction K as [| x all kept Px K IH | x all kept Nx K IH]; intros kept' K';
    inversion K'; subst; try contradiction; [reflexivity | f_equal |]; auto.
Qed.

Lemma filter_keeps_gap_entries (entries : list Dirent.t) :
  KeptInOrder isGapEntry entries
    (filter (fun e => Dirent.isDirectory e && re_GAP_prefix (Dirent.name e)) entries).
Proof.
  induction entries as [| e entries IH]; cbn [filter]; [constructor |].
  destruct (_ && _) eqn:T.
  - apply kept_keep; [now apply isGapEntry_test | exact IH].
  - apply kept_drop; [| exact IH].
    intros G. apply isGapEntry_test in G. congruence.
Qed.

(** X6.  Discovery walks the listing of the root once, from first to last,
    keeping each directory whose name begins with "GAP-" and dropping
    everything else: the discovered paths come in the order of the listing,
    nothing is sorted, merged or repeated.  When the root cannot be listed,
    the run dies of that exception and prints nothing. *)
Theorem discovery_keeps_listing_order (h : Host) :
  (forall entries,
     readdirSync h (rootDir h) = inl entries ->
     exists kept,
       KeptInOrder isGapEntry entries kept /\
       New.discoverGapDirectories h
       = ret (map (fun e => join h (rootDir h) (Dirent.name e)) kept)) /\
  (forall e,
     readdirSync h (rootDir h) = inr e ->
     New.main h [] = ([], Thrown e)).
Proof.
  split.
  - intros entries R. eexists. split; [apply filter_keeps_gap_entries |].
    apply (discoverGapDirectories_listing h entries R).
  - intros e R. unfold New.main, New.discoverGapDirectories. fold (rootDir h).
    cbn [length Nat.eqb]. rewrite R. reflexivity.
Qed.

(** The sample repository: the plain file GAP-notes.txt and the scripts
    directory are dropped, the three proposals stay in listing order. *)
Lemma discovery_keeps_listing_order_witness :
  exists kept,
    KeptInOrder isGapEntry
      [ {| Dirent.name := "GAP-0001"; Dirent.isDirectory := true |};
        {| Dirent.name := "GAP-0002"; Dirent.isDirectory := true |};
        {| Dirent.name := "GAP-0003"; Dirent.isDirectory := true |};
        {| Dirent.name := "GAP-notes.txt"; Dirent.isDirectory := false |};
        {| Dirent.name := "scripts"; Dirent.isDirectory := true |} ]
      kept /\
    New.discoverGapDirectories (Sample.host Sample.repository)
    = ret (map (fun e => Sample.posixJoin "/gaps/scripts/.." (Dirent.name e)) kept).
Proof.
  exact (proj1 (discovery_keeps_listing_order (Sample.host Sample.repository)) _ eq_refl).
Defined.

(** ** An empty metadata file *)

(** X8.  A metadata.yml that parses to [null], as an empty file does, is
    not stopped by the type test either, since [typeof null] is "object":
    the schema validator is called on [null]; if it rejects it the schema
    error is reported, and if it accepted it the read of [metadata.authors]
    would throw.  The "must contain a valid YAML object" error is never the
    outcome. *)
Theorem null_passes_type_test (h : Host) (dirPath gapName : string) :
  metadataParsesTo h dirPath JNull ->
  New.validateMetadata h dirPath gapName =
    (if valid (validateMetadataSchema h JNull)
     then throw "TypeError: Cannot read properties of null (reading 'authors')"
     else fails gapName (SchemaViolation (errors (validateMetadataSchema h JNull))))
  /\ New.validateMetadata h dirPath gapName <> fails gapName NotAnObject.
Proof.
  intros P. rewrite (validateMetadata_null h dirPath gapName P).
  split; [reflexivity |].
  destruct (valid (validateMetadataSchema h JNull)); [discriminate |].
  intros E. apply fails_inj in E. discriminate E.
Qed.

Lemma null_parses :
  metadataParsesTo (hostParsing JNull) "/gaps/scripts/../GAP-0001" JNull.
Proof.
  split; [reflexivity |]. exists Sample.ymlValid. split; reflexivity.
Qed.

Lemma null_passes_type_test_witness :
  New.validateMetadata (hostParsing JNull) "/gaps/scripts/../GAP-0001" "GAP-0001"
  = fails "GAP-0001"
      (SchemaViolation [{| instancePath := ""; message := "must be object" |}]).
Proof.
  exact (proj1 (null_passes_type_test (hostParsing JNull)
                  "/gaps/scripts/../GAP-0001" "GAP-0001" null_parses)).
Defined.

(** ** Metadata the schema should not have accepted *)

Lemma author_loop_passes (h : Host) (gapName : string) (authors : list string) :
  (forall a, In a authors -> isEmail h a = true) ->
  forOf (map JStr authors) (fun author =>
    s <- assertString author ;;
    when_ (negb (isEmail h s)) (fails gapName (BadAuthor s)))
  = ret tt.
Proof.
  intros G. rewrite author_loop, find_all_good; [reflexivity |].
  intros a Ha. now rewrite (G a Ha).
Qed.

(** X9.  The semantic checks rely on the schema for the presence and the
    types of the fields.  If the schema accepts a mapping that has no
    [authors], or whose [sponsor] is missing or not a string once the
    authors have passed, or whose [discussion] is missing or not a string
    once the sponsor has passed, the run does not report a validation
    failure: it dies of an uncaught exception and prints nothing. *)
Theorem unshaped_metadata_throws (h : Host) (dirPath gapName : string)
    (props : list (string * JsValue)) :
  metadataParsesTo h dirPath (JObj props) ->
  valid (validateMetadataSchema h (JObj props)) = true ->
  (lookupProp "authors" props = None ->
   exists e, New.validateMetadata h dirPath gapName = ([], Thrown e)) /\
  (forall authors,
     lookupProp "authors" props = Some (JArr (map JStr authors)) ->
     (forall a, In a authors -> isEmail h a = true) ->
     (forall s, lookupProp "sponsor" props <> Some (JStr s)) ->
     exists e, New.validateMetadata h dirPath gapName = ([], Thrown e)) /\
  (forall authors sponsor,
     lookupProp "authors" props = Some (JArr (map JStr authors)) ->
     (forall a, In a authors -> isEmail h a = true) ->
     lookupProp "sponsor" props = Some (JStr sponsor) ->
     beginsWith "@" sponsor ->
     (forall s, lookupProp "discussion" props <> Some (JStr s)) ->
     exists e, New.validateMetadata h dirPath gapName = ([], Thrown e)).
Proof.
  intros P V. rewrite (validateMetadata_parsed h dirPath gapName _ P), V.
  cbn [typeof negb]. change (negb ("object" =? "object")) with false.
  rewrite !when_false, !bind_ret_l. unfold getProp. split; [| split].
  - intros A. rewrite A, bind_ret_l. now eexists.
  - intros authors A G S. rewrite A, bind_ret_l. cbn [iterate].
    rewrite bind_ret_l, (author_loop_passes h gapName authors G), bind_ret_l.
    destruct (lookupProp "sponsor" props) as [[| | | | s | |] |];
      try (now eexists). now destruct (S s).
  - intros authors sponsor A G S B D. rewrite A, bind_ret_l. cbn [iterate].
    rewrite bind_ret_l, (author_loop_passes h gapName authors G), bind_ret_l.
    rewrite S, bind_ret_l. cbn [callStartsWith]. rewrite bind_ret_l.
    rewrite startsWith_firstChar.
    apply firstCharIs_beginsWith in B. rewrite B. cbn [negb].
    rewrite when_false, bind_ret_l.
    destruct (lookupProp "discussion" props) as [[| | | | s | |] |];
      try (now eexists). now destruct (D s).
Qed.

Lemma no_authors_parses :
  metadataParsesTo (laxHost (JObj [("sponsor", JStr "@alice")]))
    "/gaps/scripts/../GAP-0001" (JObj [("sponsor", JStr "@alice")]).
Proof.
  split; [reflexivity |]. exists Sample.ymlValid. split; reflexivity.
Qed.

(** A mapping without authors, under a schema that does not require
    them. *)
Lemma unshaped_metadata_throws_witness :
  exists e,
    New.validateMetadata (laxHost (JObj [("sponsor", JStr "@alice")]))
      "/gaps/scripts/../GAP-0001" "GAP-0001"
    = ([], Thrown e).
Proof.
  exact (proj1 (unshaped_metadata_throws (laxHost (JObj [("sponsor", JStr "@alice")]))
                  "/gaps/scripts/../GAP-0001" "GAP-0001" _ no_authors_parses eq_refl)
           eq_refl).
Defined.
